(** * TikTok mass reporter: a shallow embedding of [main.py]

    The development follows the source file top to bottom: first the Python
    builtins the script leans on ([str.strip], [str.replace], [str.lower],
    [float], truthiness, [dict.get], subscripts, [time.sleep]), then the
    [TikTokMassReporter] methods, the loaders, the prompts and [main].

    A Python [str] is modelled as a [string] whose characters are the code
    points 0..255; a Python [float] is a binary64 value ([spec_float] at
    precision 53); Python integers are unbounded ([Z], and [nat] for
    counters and list positions). *)

From Stdlib Require Import ZArith Lia Bool Ascii String List.
From Stdlib Require Import Floats.SpecFloat.
From stdpp Require Import base option strings gmap.

Import ListNotations.
Local Open Scope string_scope.
Local Open Scope list_scope.

(** ** Python strings *)

Module Py.

(** [str.isspace] on one character, for code points below 256: the
    ASCII controls TAB..CR and FS..US, the space, NEL and NBSP. *)
Definition isspace (c : ascii) : bool :=
  let n := N_of_ascii c in
  ((9 <=? n) && (n <=? 13) || (28 <=? n) && (n <=? 32)
   || (n =? 133) || (n =? 160))%N.

Fixpoint lstrip (s : string) : string :=
  match s with
  | EmptyString => EmptyString
  | String c s' => if isspace c then lstrip s' else s
  end.

Fixpoint rstrip (s : string) : string :=
  match s with
  | EmptyString => EmptyString
  | String c s' =>
      match rstrip s' with
      | EmptyString => if isspace c then EmptyString else String c EmptyString
      | r => String c r
      end
  end.

(** [s.strip()] *)
Definition strip (s : string) : string := rstrip (lstrip s).

(** [s.startswith(p)] *)
Fixpoint startswith (p s : string) : bool :=
  match p, s with
  | EmptyString, _ => true
  | String a p', String b s' => Ascii.eqb a b && startswith p' s'
  | String _ _, EmptyString => false
  end.

(** [s.replace(old, new)] for a non-empty [old]: the occurrences are
    taken from the left and do not overlap.  [skip] counts the characters
    of a match that still have to be dropped. *)
Fixpoint replace_from (skip : nat) (old new s : string) : string :=
  match s with
  | EmptyString => EmptyString
  | String c s' =>
      match skip with
      | S k => replace_from k old new s'
      | O =>
          if startswith old s
          then new +:+ replace_from (String.length old - 1) old new s'
          else String c (replace_from 0 old new s')
      end
  end.

(** With an empty [old], Python puts [new] before every character and at
    the end. *)
Fixpoint intersperse (new s : string) : string :=
  match s with
  | EmptyString => new
  | String c s' => new +:+ String c (intersperse new s')
  end.

Definition replace (s old new : string) : string :=
  match old with
  | EmptyString => intersperse new s
  | _ => replace_from 0 old new s
  end.

(** [str.lower] on one character below 256: A..Z and the Latin-1 capitals
    (all of 0xC0..0xDE but the multiplication sign) move up by 32. *)
Definition lower_char (c : ascii) : ascii :=
  let n := N_of_ascii c in
  if ((65 <=? n) && (n <=? 90)
      || (192 <=? n) && (n <=? 222) && negb (n =? 215))%N
  then ascii_of_N (n + 32) else c.

Fixpoint lower (s : string) : string :=
  match s with
  | EmptyString => EmptyString
  | String c s' => String (lower_char c) (lower s')
  end.

(** [bool(s)] is false on the empty string only. *)
Definition str_truthy (s : string) : bool :=
  match s with EmptyString => false | _ => true end.

(** [a or b] on strings *)
Definition str_or (a b : string) : string := if str_truthy a then a else b.

End Py.

(** ** Python floats *)

Module PyFloat.

Definition prec : Z := 53.
Definition emax : Z := 1024.

(** The binary64 value nearest to [(-1)^neg * m * 10^e], ties to even
    (what [float] computes from a decimal literal). *)
Definition of_decimal (neg : bool) (m : Z) (e : Z) : spec_float :=
  match m with
  | Zpos p =>
      if (0 <=? e)%Z
      then binary_normalize prec emax (cond_Zopp neg (m * 10 ^ e)) 0 neg
      else SFdiv prec emax (S754_finite neg p 0)
                           (S754_finite false (Pos.pow 10 (Z.to_pos (- e))) 0)
  | _ => S754_zero neg
  end.

Definition of_Z (n : Z) : spec_float :=
  binary_normalize prec emax n 0 false.

Definition is_zero (f : spec_float) : bool :=
  match f with S754_zero _ => true | _ => false end.

(** [f < 0] *)
Definition negative (f : spec_float) : bool := SFltb f (S754_zero false).

(** *** [float(s)] on a string

    The argument is stripped of white space, its underscores are checked
    (each one between two digits) and dropped, and what is left has to be
    a signed decimal literal, [inf], [infinity] or [nan]. *)

Definition is_digit (c : ascii) : bool :=
  let n := N_of_ascii c in ((48 <=? n) && (n <=? 57))%N.

Definition digit_val (c : ascii) : Z := Z.of_N (N_of_ascii c) - 48.

(** The white space [float] strips: TAB..CR, space, NEL and NBSP. *)
Definition float_space (c : ascii) : bool :=
  let n := N_of_ascii c in
  ((9 <=? n) && (n <=? 13) || (n =? 32) || (n =? 133) || (n =? 160))%N.

Fixpoint lskip (s : string) : string :=
  match s with
  | EmptyString => EmptyString
  | String c s' => if float_space c then lskip s' else s
  end.

Fixpoint rskip (s : string) : string :=
  match s with
  | EmptyString => EmptyString
  | String c s' =>
      match rskip s' with
      | EmptyString => if float_space c then EmptyString else String c EmptyString
      | r => String c r
      end
  end.

Definition is_underscore (c : ascii) : bool := Ascii.eqb c "_".

Fixpoint underscores_ok (prev : ascii) (s : string) : bool :=
  match s with
  | EmptyString => negb (is_underscore prev)
  | String c s' =>
      (if is_underscore c then is_digit prev
       else if is_underscore prev then is_digit c else true)
      && underscores_ok c s'
  end.

Fixpoint drop_underscores (s : string) : string :=
  match s with
  | EmptyString => EmptyString
  | String c s' =>
      if is_underscore c then drop_underscores s'
      else String c (drop_underscores s')
  end.

(** Reads a run of digits: its value after [acc], its length, the rest. *)
Fixpoint digits (acc : Z) (n : nat) (s : string) : Z * nat * string :=
  match s with
  | String c s' =>
      if is_digit c then digits (10 * acc + digit_val c) (S n) s'
      else (acc, n, s)
  | EmptyString => (acc, n, s)
  end.

Definition sign (s : string) : bool * string :=
  match s with
  | String "-" s' => (true, s')
  | String "+" s' => (false, s')
  | _ => (false, s)
  end.

Definition exponent (s : string) : option Z :=
  match s with
  | EmptyString => Some 0%Z
  | String c s' =>
      if Ascii.eqb c "e" || Ascii.eqb c "E" then
        let '(neg, s1) := sign s' in
        let '(v, n, rest) := digits 0 0 s1 in
        match n, rest with
        | S _, EmptyString => Some (cond_Zopp neg v)
        | _, _ => None
        end
      else None
  end.

Definition number (neg : bool) (s : string) : option spec_float :=
  let '(ip, ni, r1) := digits 0 0 s in
  let '(m, nf, r2) :=
    match r1 with
    | String "." r => digits ip 0 r
    | _ => (ip, 0, r1)
    end in
  match ni + nf with
  | O => None
  | S _ =>
      match exponent r2 with
      | Some e => Some (of_decimal neg m (e - Z.of_nat nf))
      | None => None
      end
  end.

Definition special (neg : bool) (s : string) : option spec_float :=
  let l := Py.lower s in
  if String.eqb l "inf" || String.eqb l "infinity" then Some (S754_infinity neg)
  else if String.eqb l "nan" then Some S754_nan
  else None.

(** [None] stands for the [ValueError] that [float] raises. *)
Definition of_string (s : string) : option spec_float :=
  let s := rskip (lskip s) in
  if underscores_ok "000" s then
    let '(neg, body) := sign (drop_underscores s) in
    match special neg body with
    | Some f => Some f
    | None => number neg body
    end
  else None.

End PyFloat.

(** ** Python objects *)

(** What [json.load] and [response.json()] hand back.  A JSON object is a
    [dict] with string keys. *)
#[warnings="-register-all"]
Inductive value : Type :=
| VNone
| VBool (b : bool)
| VInt (n : Z)
| VFloat (f : spec_float)
| VStr (s : string)
| VList (l : list value)
| VDict (d : gmap string value).

(** The exceptions that can travel through the script.  All of them but
    [SystemExit] derive from [Exception]. *)
Inductive exn : Type :=
| RequestException
| JSONDecodeError
| AttributeError
| KeyError (key : string)
| TypeError
| ValueError
| OverflowError
| EOFError
| FileNotFoundError
| OSError
| SystemExit (code : Z).

Definition is_Exception (e : exn) : bool :=
  match e with SystemExit _ => false | _ => true end.

Definition is_FileNotFoundError (e : exn) : bool :=
  match e with FileNotFoundError => true | _ => false end.

Definition is_ValueError (e : exn) : bool :=
  match e with ValueError | JSONDecodeError => true | _ => false end.

Inductive result (A : Type) : Type :=
| Ok (a : A)
| Raise (e : exn).
Arguments Ok {A} a.
Arguments Raise {A} e.

Module PyObj.

(** [bool(v)] *)
Definition truthy (v : value) : bool :=
  match v with
  | VNone => false
  | VBool b => b
  | VInt n => negb (n =? 0)%Z
  | VFloat f => negb (PyFloat.is_zero f)
  | VStr s => Py.str_truthy s
  | VList l => match l with [] => false | _ => true end
  | VDict d => match map_to_list d with [] => false | _ => true end
  end.

(** [v == 0] *)
Definition eq_zero (v : value) : bool :=
  match v with
  | VBool b => negb b
  | VInt n => (n =? 0)%Z
  | VFloat f => PyFloat.is_zero f
  | _ => false
  end.

(** [isinstance(v, dict)] *)
Definition is_dict (v : value) : bool :=
  match v with VDict _ => true | _ => false end.

(** [v.get(key)]: only a dict has the method. *)
Definition get (v : value) (key : string) : result value :=
  match v with
  | VDict d => Ok (default VNone (d !! key))
  | _ => Raise AttributeError
  end.

(** [v.get(key, dflt)] *)
Definition get_default (v : value) (key : string) (dflt : value) : result value :=
  match v with
  | VDict d => Ok (default dflt (d !! key))
  | _ => Raise AttributeError
  end.

(** [v[key]] with a string key: a dict looks the key up, every other
    JSON value rejects the subscript. *)
Definition getitem (v : value) (key : string) : result value :=
  match v with
  | VDict d =>
      match d !! key with
      | Some x => Ok x
      | None => Raise (KeyError key)
      end
  | _ => Raise TypeError
  end.

End PyObj.

(** ** [time.sleep] *)

Module PyTime.

(** What [time.sleep(secs)] checks before it waits: a NaN is refused, the
    length is scaled to nanoseconds and has to fit the signed 64-bit
    clock, and a negative length is refused.  [None] means it sleeps. *)
Definition sleep_error (secs : spec_float) : option exn :=
  match secs with
  | S754_nan => Some ValueError
  | _ =>
      let ns := SFmul PyFloat.prec PyFloat.emax secs (PyFloat.of_Z (10 ^ 9)) in
      let lim := PyFloat.of_Z (2 ^ 63) in
      if SFleb lim ns || SFltb ns (SFopp lim) then Some OverflowError
      else if PyFloat.negative ns then Some ValueError
      else None
  end.

End PyTime.

(** ** What the script does to the outside world *)

(** One constructor for each [print] and each [input] prompt of the
    source; the colour codes and the wording are left out, the values
    formatted into the line are kept. *)
Inductive message : Type :=
| MsgBanner
| MsgTitle
| MsgRule
| MsgErrUserInfo (e : exn)
| MsgErrReport (e : exn)
| MsgStart (total : nat)
| MsgUsingDelay (delay : spec_float)
| MsgProcessing (i total : nat) (username : string)
| MsgNotFound (username : string)
| MsgFoundId (user_id : value)
| MsgReported (username : string)
| MsgReportFailed (username : string)
| MsgWaiting (delay : spec_float)
| MsgSummary
| MsgSuccessful (success_count : nat)
| MsgFailed (fail_count : nat)
| MsgTotal (total : nat)
| MsgCookiesMissing
| MsgCookiesHint
| MsgCookiesError (e : exn)
| MsgUsernamesMissing
| MsgUsernamesHint
| MsgUsernamesError (e : exn)
| MsgReasonMenu
| MsgReasonOption (n : nat)
| MsgEnterChoice
| MsgInvalidChoice
| MsgInvalidCookies
| MsgNoUsernames
| MsgEnterDelay
| MsgInvalidDelay
| MsgAbout (n : nat) (reason : Z)
| MsgAreYouSure
| MsgCancelled.

Inductive event : Type :=
| Get (url : string)
| Post (url : string) (data : gmap string value)
| Sleep (secs : spec_float)
| Print (m : message)
| System (cmd : string).

(** An HTTP response: the status and what [response.json()] gives, [None]
    when the body does not decode. *)
Record response : Type := Response {
  status_code : Z;
  json : option value
}.

(** A file as the loaders see it. *)
Inductive file (A : Type) : Type :=
| Missing
| Unreadable
| Holds (a : A).
Arguments Missing {A}.
Arguments Unreadable {A}.
Arguments Holds {A} a.

(** The two files of the working directory: what [json.load] makes of
    [tiktok_cookies.json] ([None] when it is not JSON) and the lines of
    [usernames.txt]. *)
Record files : Type := Files {
  cookies_json : file (option value);
  usernames_txt : file (list string)
}.

Section Effects.

(** [World] is the state of the upstream service. *)
Context {World : Type}.

Record state : Type := State {
  world : World;
  stdin : list string;
  out : list event
}.

Definition M (A : Type) : Type := state -> result A * state.

Definition ret {A} (a : A) : M A := fun st => (Ok a, st).

Definition bind {A B} (c : M A) (k : A -> M B) : M B :=
  fun st =>
    match c st with
    | (Ok a, st') => k a st'
    | (Raise e, st') => (Raise e, st')
    end.

Definition raise {A} (e : exn) : M A := fun st => (Raise e, st).

Definition lift {A} (r : result A) : M A := fun st => (r, st).

(** [try: body  except <catches> as e: handler e] *)
Definition try_except {A} (body : M A) (catches : exn -> bool)
    (handler : exn -> M A) : M A :=
  fun st =>
    match body st with
    | (Raise e, st') => if catches e then handler e st' else (Raise e, st')
    | r => r
    end.

Definition emit (ev : event) : M unit :=
  fun st =>
    (Ok tt, {| world := world st; stdin := stdin st; out := out st ++ [ev] |}).

Definition print (m : message) : M unit := emit (Print m).

(** [input(prompt)]: the prompt is written, one line is taken from the
    standard input; at its end [EOFError] is raised. *)
Definition input (prompt : message) : M string :=
  fun st =>
    let o := out st ++ [Print prompt] in
    match stdin st with
    | line :: rest => (Ok line, {| world := world st; stdin := rest; out := o |})
    | [] => (Raise EOFError, {| world := world st; stdin := []; out := o |})
    end.

(** [sys.exit(code)] *)
Definition sys_exit {A} (code : Z) : M A := raise (SystemExit code).

(** [time.sleep(secs)] *)
Definition time_sleep (secs : spec_float) : M unit :=
  match PyTime.sleep_error secs with
  | Some e => raise e
  | None => emit (Sleep secs)
  end.

End Effects.

Arguments state World : clear implicits.
Arguments M World A : clear implicits.

(** The script is written with stdpp's monad notations:
    [x ← c; k] and [c;; k]. *)
#[global] Instance M_ret {World} : MRet (M World) := @ret World.
#[global] Instance M_bind {World} : MBind (M World) :=
  fun A B k c => bind c k.

(** ** The reporter *)

Definition detail_url : string :=
  "https://www.tiktok.com/api/user/detail/?uniqueId=".

Definition report_url : string := "https://www.tiktok.com/api/report/user/".

(** [TikTokMassReporter]: the session carries the cookies; its headers
    are constants of the source and play no part in what follows. *)
Record TikTokMassReporter : Type := Reporter {
  cookies : gmap string value
}.

(** The form fields of a report *)
Definition report_payload (user_id : value) (reason : Z) : gmap string value :=
  {[ "object_id" := user_id;
     "owner_id" := user_id;
     "reason" := VInt reason;
     "report_type" := VStr "user" ]}.

Section Script.

Context {World : Type}.

(** The upstream service behind [requests]: a request is answered from
    the state of the world, which it may change; [None] is a transport
    failure, raised by [requests] as an exception. *)
Variable http_get :
  gmap string value -> string -> World -> option response * World.
Variable http_post :
  gmap string value -> string -> gmap string value -> World ->
  option response * World.

Local Abbreviation M := (M World).

(** [self.session.get(url)] *)
Definition session_get (self : TikTokMassReporter) (url : string) : M response :=
  fun st =>
    let '(r, w) := http_get (cookies self) url (world st) in
    (match r with Some resp => Ok resp | None => Raise RequestException end,
     {| world := w; stdin := stdin st; out := out st ++ [Get url] |}).

(** [self.session.post(url, data=data)] *)
Definition session_post (self : TikTokMassReporter) (url : string)
    (data : gmap string value) : M response :=
  fun st =>
    let '(r, w) := http_post (cookies self) url data (world st) in
    (match r with Some resp => Ok resp | None => Raise RequestException end,
     {| world := w; stdin := stdin st; out := out st ++ [Post url data] |}).

(** [response.json()] *)
Definition response_json (resp : response) : M value :=
  match json resp with
  | Some v => mret v
  | None => raise JSONDecodeError
  end.

Definition clear_screen (self : TikTokMassReporter) : M unit :=
  emit (System "clear").

Definition print_banner (self : TikTokMassReporter) : M unit :=
  print MsgBanner;; print MsgTitle;; print MsgRule.

(** The bare [except:] catches whatever the request raises. *)
Definition check_cookies_valid (self : TikTokMassReporter) : M bool :=
  try_except
    (resp ← session_get self (detail_url +:+ "tiktok");
     mret (status_code resp =? 200)%Z)
    (fun _ => true)
    (fun _ => mret false).

(** In [get_user_info] and [report_account] the [try] block either
    returns a value ([Some]) or falls through to the last line. *)
Definition get_user_info (self : TikTokMassReporter) (username : string) : M value :=
  let url := detail_url +:+ username in
  r ← try_except
        (resp ← session_get self url;
         if (status_code resp =? 200)%Z
         then v ← response_json resp; mret (Some v)
         else mret None)
        is_Exception
        (fun e => print (MsgErrUserInfo e);; mret None);
  match r with
  | Some v => mret v
  | None => mret VNone
  end.

Definition report_account (self : TikTokMassReporter) (user_id : value)
    (reason : Z) : M bool :=
  let payload := report_payload user_id reason in
  r ← try_except
        (resp ← session_post self report_url payload;
         if (status_code resp =? 200)%Z
         then result ← response_json resp;
              sc ← lift (PyObj.get_default result "status_code" (VInt 0));
              mret (Some (PyObj.eq_zero sc))
         else mret None)
        is_Exception
        (fun e => print (MsgErrReport e);; mret None);
  match r with
  | Some b => mret b
  | None => mret false
  end.

(** [not user_info or not user_info.get('userInfo')] *)
Definition user_missing (user_info : value) : M bool :=
  if negb (PyObj.truthy user_info) then mret true
  else
    ui ← lift (PyObj.get user_info "userInfo");
    mret (negb (PyObj.truthy ui)).

(** Line 110: [username.strip().replace('@', '')] *)
Definition normalize (username : string) : string :=
  Py.replace (Py.strip username) "@" "".

(** One turn of the loop of [process_accounts], from the counters before
    it to the counters after it.  [i] is the position given by
    [enumerate(usernames, 1)]. *)
Definition process_one (self : TikTokMassReporter) (reason : Z)
    (delay : spec_float) (total i : nat) (username : string)
    (success_count fail_count : nat) : M (nat * nat) :=
  let username := normalize username in
  if negb (Py.str_truthy username) then mret (success_count, fail_count)
  else
    print (MsgProcessing i total username);;
    user_info ← get_user_info self username;
    missing ← user_missing user_info;
    if (missing : bool) then
      print (MsgNotFound username);;
      mret (success_count, fail_count + 1)
    else
      a ← lift (PyObj.getitem user_info "userInfo");
      b ← lift (PyObj.getitem a "user");
      user_id ← lift (PyObj.getitem b "id");
      print (MsgFoundId user_id);;
      ok ← report_account self user_id reason;
      counts ← (if (ok : bool)
                then print (MsgReported username);;
                     mret (success_count + 1, fail_count)
                else print (MsgReportFailed username);;
                     mret (success_count, fail_count + 1));
      (if (i <? total)%nat
       then print (MsgWaiting delay);; time_sleep delay
       else mret tt);;
      mret counts.

Fixpoint process_loop (self : TikTokMassReporter) (reason : Z)
    (delay : spec_float) (total i : nat) (usernames : list string)
    (success_count fail_count : nat) : M (nat * nat) :=
  match usernames with
  | [] => mret (success_count, fail_count)
  | username :: rest =>
      counts ← process_one self reason delay total i username
                 success_count fail_count;
      process_loop self reason delay total (S i) rest (fst counts) (snd counts)
  end.

Definition process_accounts (self : TikTokMassReporter)
    (usernames : list string) (reason : Z) (delay : spec_float) : M unit :=
  let total := length usernames in
  print (MsgStart total);;
  print (MsgUsingDelay delay);;
  counts ← process_loop self reason delay total 1 usernames 0 0;
  print MsgSummary;;
  print (MsgSuccessful (fst counts));;
  print (MsgFailed (snd counts));;
  print (MsgTotal total).

(** ** The loaders and the prompts *)

(** [open(file_path)] followed by [json.load]. *)
Definition read_json (f : file (option value)) : M value :=
  match f with
  | Missing => raise FileNotFoundError
  | Unreadable => raise OSError
  | Holds None => raise JSONDecodeError
  | Holds (Some v) => mret v
  end.

(** [open(file_path)] followed by [readlines]. *)
Definition read_lines (f : file (list string)) : M (list string) :=
  match f with
  | Missing => raise FileNotFoundError
  | Unreadable => raise OSError
  | Holds ls => mret ls
  end.

Definition load_cookies (fs : files) : M (gmap string value) :=
  try_except
    (c ← read_json (cookies_json fs);
     match c with
     | VDict d => mret d
     | _ => raise ValueError
     end)
    is_Exception
    (fun e =>
       if is_FileNotFoundError e
       then print MsgCookiesMissing;; print MsgCookiesHint;; sys_exit 1
       else print (MsgCookiesError e);; sys_exit 1).

Definition load_usernames (fs : files) : M (list string) :=
  try_except
    (ls ← read_lines (usernames_txt fs);
     mret (map Py.strip
             (List.filter (fun line => Py.str_truthy (Py.strip line)) ls)))
    is_Exception
    (fun e =>
       if is_FileNotFoundError e
       then print MsgUsernamesMissing;; print MsgUsernamesHint;; sys_exit 1
       else print (MsgUsernamesError e);; sys_exit 1).

Definition reasons : gmap string Z :=
  {[ "1" := 1001; "2" := 1002; "3" := 1003; "4" := 1004;
     "5" := 1005; "6" := 1006; "7" := 1007; "8" := 1008 ]}%Z.

(** What one turn of the [while True] loop makes of the line it read:
    the code to return, or [None] to ask again. *)
Definition parse_choice (line : string) : option Z :=
  let choice := Py.str_or (Py.strip line) "4" in
  reasons !! choice.

(** The [while True] loop.  Every turn takes a line from the standard
    input, so [fuel] turns are enough when it holds no more than [fuel]
    lines: the last branch is never reached then. *)
Fixpoint reason_loop (fuel : nat) : M Z :=
  line ← input MsgEnterChoice;
  match parse_choice line with
  | Some code => mret code
  | None =>
      print MsgInvalidChoice;;
      match fuel with
      | S n => reason_loop n
      | O => raise EOFError
      end
  end.

Definition get_report_reason : M Z :=
  print MsgReasonMenu;;
  print (MsgReasonOption 1);; print (MsgReasonOption 2);;
  print (MsgReasonOption 3);; print (MsgReasonOption 4);;
  print (MsgReasonOption 5);; print (MsgReasonOption 6);;
  print (MsgReasonOption 7);; print (MsgReasonOption 8);;
  ((fun st => reason_loop (length (stdin st)) st) : M Z).

(** Lines 223-227 of [main]: the delay prompt. *)
Definition get_delay : M spec_float :=
  try_except
    (line ← input MsgEnterDelay;
     match PyFloat.of_string (Py.str_or line "10") with
     | Some d => mret d
     | None => raise ValueError
     end)
    is_ValueError
    (fun _ => print MsgInvalidDelay;; mret (PyFloat.of_Z 10)).

Definition main (fs : files) : M unit :=
  c ← load_cookies fs;
  let reporter := Reporter c in
  clear_screen reporter;;
  print_banner reporter;;
  valid ← check_cookies_valid reporter;
  (if negb valid then print MsgInvalidCookies;; sys_exit 1 else mret tt);;
  usernames ← load_usernames fs;
  (match usernames with
   | [] => print MsgNoUsernames;; sys_exit 1
   | _ => mret tt
   end);;
  reason ← get_report_reason;
  delay ← get_delay;
  print (MsgAbout (length usernames) reason);;
  confirm ← input MsgAreYouSure;
  (if negb (String.eqb (Py.lower confirm) "y")
   then print MsgCancelled;; sys_exit 0
   else mret tt);;
  process_accounts reporter usernames reason delay.

(** The status the interpreter exits with: 0 when [main] returns, the
    argument of [sys.exit], and 1 for an exception nothing caught. *)
Definition exit_code (r : result unit) : Z :=
  match r with
  | Ok _ => 0
  | Raise (SystemExit code) => code
  | Raise _ => 1
  end.

Definition run (fs : files) (st : state World) : Z * state World :=
  let '(r, st') := main fs st in (exit_code r, st').

End Script.

(** * The vocabulary of the claims *)

(** ** Reading the log *)

Definition is_get (ev : event) : bool :=
  match ev with Get _ => true | _ => false end.
Definition is_post (ev : event) : bool :=
  match ev with Post _ _ => true | _ => false end.
Definition is_sleep (ev : event) : bool :=
  match ev with Sleep _ => true | _ => false end.
Definition is_request (ev : event) : bool := is_get ev || is_post ev.

(** How many events of a log pass a test. *)
Definition count (p : event -> bool) (log : list event) : nat :=
  length (List.filter p log).

(** The requests of a log, in their order. *)
Definition requests (log : list event) : list event :=
  List.filter is_request log.

(** ** Outcomes of the requests *)

(** What [report_account] accepts as a success: a 200 whose body is a
    JSON object with no [status_code], or with one equal to 0. *)
Definition accepted (resp : response) : Prop :=
  status_code resp = 200%Z /\
  exists d, json resp = Some (VDict d) /\
    PyObj.eq_zero (default (VInt 0) (d !! "status_code")) = true.

(** What [get_user_info] makes of the answer to its request. *)
Definition resolved (r : option response) : value :=
  match r with
  | Some resp =>
      if (status_code resp =? 200)%Z then default VNone (json resp) else VNone
  | None => VNone
  end.

(** What the probe makes of the answer to its request. *)
Definition probe_ok (r : option response) : bool :=
  match r with
  | Some resp => (status_code resp =? 200)%Z
  | None => false
  end.

Definition probe_url : string := detail_url +:+ "tiktok".

(** ** One turn of the loop *)

(** Lines 118-123 as a function of the value [get_user_info] returned:
    no identity ([Ok None], the "could not find user" branch), the
    identity handed to [report_account], or the exception of a subscript
    or of [.get]. *)
Definition identity (user_info : value) : result (option value) :=
  if negb (PyObj.truthy user_info) then Ok None
  else
    match PyObj.get user_info "userInfo" with
    | Raise e => Raise e
    | Ok ui =>
        if negb (PyObj.truthy ui) then Ok None
        else
          match PyObj.getitem user_info "userInfo" with
          | Raise e => Raise e
          | Ok a =>
              match PyObj.getitem a "user" with
              | Raise e => Raise e
              | Ok b =>
                  match PyObj.getitem b "id" with
                  | Raise e => Raise e
                  | Ok user_id => Ok (Some user_id)
                  end
              end
          end
    end.

(** A stub resolver: every lookup ends in an identity or in "not
    found", never in a body of another shape. *)
Definition stub_resolver {World}
    (http_get : gmap string value -> string -> World ->
                option response * World) : Prop :=
  forall c url w, exists o, identity (resolved (fst (http_get c url w))) = Ok o.

(** The entries that line 111 does not skip. *)
Definition nonempty (username : string) : bool :=
  Py.str_truthy (normalize username).

Definition N_nonEmpty (usernames : list string) : nat :=
  length (List.filter nonempty usernames).

(** The entries that line 111 skips. *)
Definition skipped (usernames : list string) : nat :=
  length (List.filter (fun u => negb (nonempty u)) usernames).

(** The counters after a report. *)
Definition tally (ok : bool) (success_count fail_count : nat) : nat * nat :=
  if ok then (success_count + 1, fail_count)
  else (success_count, fail_count + 1).

Section Turns.

Variable reason : Z.
Variable delay : spec_float.
Variable total : nat.

(** The log of a turn that reaches [report_account], up to the line
    that tells how the report went. *)
Definition report_log (i : nat) (u : string) (ms : list message)
    (user_id : value) (ms' : list message) (ok : bool) : list event :=
  Print (MsgProcessing i total u) :: Get (detail_url +:+ u) :: map Print ms
  ++ Print (MsgFoundId user_id)
  :: Post report_url (report_payload user_id reason) :: map Print ms'
  ++ [Print (if ok then MsgReported u else MsgReportFailed u)].

(** [turn i username s f v r log]: the turn at position [i], entered
    with the counters [s] and [f], in which [get_user_info] returned [v]
    (when it was called), ends with [r] and adds [log] to the output. *)
Inductive turn (i : nat) (username : string) (s f : nat) (v : value) :
    result (nat * nat) -> list event -> Prop :=
| turn_skip :
    normalize username = "" ->
    turn i username s f v (Ok (s, f)) []
| turn_not_found ms :
    normalize username <> "" ->
    identity v = Ok None ->
    turn i username s f v (Ok (s, f + 1))
      (Print (MsgProcessing i total (normalize username))
       :: Get (detail_url +:+ normalize username) :: map Print ms
       ++ [Print (MsgNotFound (normalize username))])
| turn_fault ms e :
    normalize username <> "" ->
    identity v = Raise e ->
    turn i username s f v (Raise e)
      (Print (MsgProcessing i total (normalize username))
       :: Get (detail_url +:+ normalize username) :: map Print ms)
| turn_last ms user_id ms' ok :
    normalize username <> "" ->
    identity v = Ok (Some user_id) ->
    ~ i < total ->
    turn i username s f v (Ok (tally ok s f))
      (report_log i (normalize username) ms user_id ms' ok)
| turn_wait ms user_id ms' ok :
    normalize username <> "" ->
    identity v = Ok (Some user_id) ->
    i < total ->
    PyTime.sleep_error delay = None ->
    turn i username s f v (Ok (tally ok s f))
      (report_log i (normalize username) ms user_id ms' ok
       ++ [Print (MsgWaiting delay); Sleep delay])
| turn_wait_refused ms user_id ms' ok e :
    normalize username <> "" ->
    identity v = Ok (Some user_id) ->
    i < total ->
    PyTime.sleep_error delay = Some e ->
    turn i username s f v (Raise e)
      (report_log i (normalize username) ms user_id ms' ok
       ++ [Print (MsgWaiting delay)]).

(** [turns i usernames s f r log]: the loop entered at position [i] with
    the counters [s] and [f] runs the turns of [usernames] one after the
    other, stops at the first one that raises, and ends with [r] after
    adding [log] to the output. *)
Inductive turns : nat -> list string -> nat -> nat ->
    result (nat * nat) -> list event -> Prop :=
| turns_nil i s f :
    turns i [] s f (Ok (s, f)) []
| turns_cons i username rest s f v s' f' log r log' :
    turn i username s f v (Ok (s', f')) log ->
    turns (S i) rest s' f' r log' ->
    turns i (username :: rest) s f r (log ++ log')
| turns_raise i username rest s f v e log :
    turn i username s f v (Raise e) log ->
    turns i (username :: rest) s f (Raise e) log.

End Turns.

(** ** The phases of a run *)

(** The state in which the loop of [process_accounts] is entered. *)
Definition started {World} (delay : spec_float) (usernames : list string)
    (st : state World) : state World :=
  {| world := world st; stdin := stdin st;
     out := out st ++ [Print (MsgStart (length usernames));
                       Print (MsgUsingDelay delay)] |}.

(** The four lines that end a run. *)
Definition summary (usernames : list string) (s f : nat) : list event :=
  [Print MsgSummary; Print (MsgSuccessful s); Print (MsgFailed f);
   Print (MsgTotal (length usernames))].

(** The nine lines of the menu. *)
Definition menu : list event :=
  [Print MsgReasonMenu;
   Print (MsgReasonOption 1); Print (MsgReasonOption 2);
   Print (MsgReasonOption 3); Print (MsgReasonOption 4);
   Print (MsgReasonOption 5); Print (MsgReasonOption 6);
   Print (MsgReasonOption 7); Print (MsgReasonOption 8)].

(** The state once the screen is cleared and the banner printed. *)
Definition greeted {World} (st : state World) : state World :=
  {| world := world st; stdin := stdin st;
     out := out st ++ [System "clear"; Print MsgBanner; Print MsgTitle;
                       Print MsgRule] |}.

(** Where [main] stands after the confirmation prompt. *)
Definition asked {World} (n : nat) (reason : Z) (rest : list string)
    (st : state World) : state World :=
  {| world := world st; stdin := rest;
     out := out st ++ [Print (MsgAbout n reason); Print MsgAreYouSure] |}.

Section Phases.

Context {World : Type}.
Variable http_get :
  gmap string value -> string -> World -> option response * World.
Variable http_post :
  gmap string value -> string -> gmap string value -> World ->
  option response * World.

(** [main] up to the delay prompt: what it has gathered when it reaches
    the confirmation. *)
Definition startup (fs : files) :
    M World (TikTokMassReporter * list string * Z * spec_float) :=
  c ← load_cookies fs;
  let reporter := Reporter c in
  clear_screen reporter;;
  print_banner reporter;;
  valid ← check_cookies_valid http_get reporter;
  (if negb valid then print MsgInvalidCookies;; sys_exit 1 else mret tt);;
  usernames ← load_usernames fs;
  (match usernames with
   | [] => print MsgNoUsernames;; sys_exit 1
   | _ => mret tt
   end);;
  reason ← get_report_reason;
  delay ← get_delay;
  mret (reporter, usernames, reason, delay).

(** [main] from the confirmation on. *)
Definition confirm_and_report
    (x : TikTokMassReporter * list string * Z * spec_float) : M World unit :=
  let '(reporter, usernames, reason, delay) := x in
  print (MsgAbout (length usernames) reason);;
  confirm ← input MsgAreYouSure;
  (if negb (String.eqb (Py.lower confirm) "y")
   then print MsgCancelled;; sys_exit 0
   else mret tt);;
  process_accounts http_get http_post reporter usernames reason delay.

End Phases.

(** ** The readings of the spec that are compared with the code *)

(** The spec's reading of a successful submission: a 200 whose decoded
    body has a status field, and that field equals 0. *)
Definition spec_success (r : option response) : Prop :=
  exists resp d v,
    r = Some resp /\ status_code resp = 200%Z /\
    json resp = Some (VDict d) /\ d !! "status_code" = Some v /\
    PyObj.eq_zero v = true.

(** The spec's reading of normalization: trim, then drop one leading
    marker. *)
Definition spec_normalize (username : string) : string :=
  match Py.strip username with
  | String "@" rest => rest
  | s => s
  end.

(** [s] without any occurrence of [c]. *)
Fixpoint without (c : ascii) (s : string) : string :=
  match s with
  | EmptyString => EmptyString
  | String a s' =>
      if Ascii.eqb a c then without c s' else String a (without c s')
  end.

(** The delay that the answer "-5" gives: the float -5.0. *)
Definition minus_five : spec_float := PyFloat.of_decimal true 5 0.

(** ** A stub service *)

Module Scenario.

Definition user_body (id : string) : value :=
  VDict {[ "userInfo" := VDict {[ "user" := VDict {[ "id" := VStr id ]} ]} ]}.

(** The probe is answered; alice and carol exist, nobody else does. *)
Definition get (c : gmap string value) (url : string) (w : unit) :
    option response * unit :=
  if String.eqb url (detail_url +:+ "tiktok")
  then (Some (Response 200 (Some (VDict ∅))), w)
  else if String.eqb url (detail_url +:+ "alice")
  then (Some (Response 200 (Some (user_body "1"))), w)
  else if String.eqb url (detail_url +:+ "carol")
  then (Some (Response 200 (Some (user_body "3"))), w)
  else (Some (Response 404 None), w).

(** The report on alice is taken, every other one is turned down. *)
Definition post (c : gmap string value) (url : string)
    (data : gmap string value) (w : unit) : option response * unit :=
  match data !! "object_id" with
  | Some (VStr "1") =>
      (Some (Response 200 (Some (VDict {[ "status_code" := VInt 0 ]}))), w)
  | _ =>
      (Some (Response 200 (Some (VDict {[ "status_code" := VInt 5 ]}))), w)
  end.

(** A service that answers a report with an empty JSON object. *)
Definition post_empty (c : gmap string value) (url : string)
    (data : gmap string value) (w : unit) : option response * unit :=
  (Some (Response 200 (Some (VDict ∅))), w).

(** A service whose lookup answers with a [userInfo] that has no
    [user]. *)
Definition get_no_user (c : gmap string value) (url : string) (w : unit) :
    option response * unit :=
  (Some (Response 200
           (Some (VDict {[ "userInfo" := VDict {[ "stats" := VDict ∅ ]} ]}))),
   w).

(** A service that cannot be reached. *)
Definition get_down (c : gmap string value) (url : string) (w : unit) :
    option response * unit :=
  (None, w).

Definition reporter : TikTokMassReporter := Reporter ∅.

Definition start (lines : list string) : state unit :=
  {| world := tt; stdin := lines; out := [] |}.

Definition ten : spec_float := PyFloat.of_Z 10.

Definition handles : list string := ["alice"; "@bob"; "  "; "carol"].

Definition jar : gmap string value := {[ "sessionid" := VStr "abc" ]}.

Definition good_files : files :=
  {| cookies_json := Holds (Some (VDict jar));
     usernames_txt := Holds ["alice"; "@bob"; "  "; "carol"] |}.

Definition no_cookies : files :=
  {| cookies_json := Missing;
     usernames_txt := Holds ["alice"; "@bob"; "  "; "carol"] |}.

Definition blank_usernames : files :=
  {| cookies_json := Holds (Some (VDict jar));
     usernames_txt := Holds ["  "; ""] |}.

End Scenario.

(** * The vocabulary of the further properties *)

(** Every character of [s] passes the test [p]. *)
Fixpoint all_chars (p : ascii -> bool) (s : string) : bool :=
  match s with
  | EmptyString => true
  | String c s' => p c && all_chars p s'
  end.

Definition is_marker (c : ascii) : bool := Ascii.eqb c "@".

(** A string that does not begin with white space. *)
Definition head_not_space (s : string) : Prop :=
  match s with
  | EmptyString => True
  | String c _ => Py.isspace c = false
  end.

(** A handle as [load_usernames] returns it: not empty, and trimmed. *)
Definition loaded (u : string) : Prop := u <> "" /\ Py.strip u = u.

(** The prompt and the complaint of [n] rejected answers. *)
Fixpoint asked_again (n : nat) : list event :=
  match n with
  | O => []
  | S n' => Print MsgEnterChoice :: Print MsgInvalidChoice :: asked_again n'
  end.

(** The one-character string of the digit [k]. *)
Definition digit (k : nat) : string :=
  String (ascii_of_nat (48 + k)) EmptyString.

(** What an event of a run of [process_accounts] may be: a lookup of a
    handle of the list, in its normalized form; a report, sent to the
    report address with the reason of the run; a wait of the delay of the
    run; a line of output. *)
Definition addressed (reason : Z) (delay : spec_float)
    (usernames : list string) (ev : event) : Prop :=
  match ev with
  | Get url =>
      exists u, In u usernames /\ normalize u <> "" /\
                url = detail_url +:+ normalize u
  | Post url data =>
      url = report_url /\ exists user_id, data = report_payload user_id reason
  | Sleep secs => secs = delay
  | Print _ => True
  | System _ => False
  end.

(** A log read after [g] lookups, [p] reports and [s] waits, in which
    every report comes after a lookup of its own and every wait after a
    report of its own. *)
Fixpoint in_order (g p s : nat) (log : list event) : Prop :=
  match log with
  | [] => True
  | Get _ :: l => in_order (S g) p s l
  | Post _ _ :: l => S p <= g /\ in_order g (S p) s l
  | Sleep _ :: l => S s <= p /\ in_order g p (S s) l
  | _ :: l => in_order g p s l
  end.


(** A stub service in which every handle exists, under the identity 7. *)
Module Everyone.

Definition get (c : gmap string value) (url : string) (w : unit) :
    option response * unit :=
  (Some (Response 200 (Some (Scenario.user_body "7"))), w).

End Everyone.

(** * Properties *)

(** ** The builtins on examples *)

Example strip_ex : Py.strip "  @bob	 " = "@bob".
Proof. reflexivity. Qed.

Example replace_ex : Py.replace "a@@b@" "@" "" = "ab".
Proof. reflexivity. Qed.

Example replace_ex2 : Py.replace "aaa" "aa" "b" = "ba".
Proof. reflexivity. Qed.

Example lower_ex : Py.lower "YeS" = "yes".
Proof. reflexivity. Qed.

Example sleep_minus_5 :
  PyTime.sleep_error (PyFloat.of_decimal true 5 0) = Some ValueError.
Proof. vm_compute. reflexivity. Qed.

Example sleep_10 : PyTime.sleep_error (PyFloat.of_decimal false 10 0) = None.
Proof. vm_compute. reflexivity. Qed.

Example sleep_minus_zero : PyTime.sleep_error (S754_zero true) = None.
Proof. vm_compute. reflexivity. Qed.

Example sleep_inf : PyTime.sleep_error (S754_infinity false) = Some OverflowError.
Proof. vm_compute. reflexivity. Qed.

(** ** Reading the log *)

Lemma count_app p l1 l2 : count p (l1 ++ l2) = count p l1 + count p l2.
Proof. unfold count. now rewrite List.filter_app, length_app. Qed.

Lemma count_cons p ev l :
  count p (ev :: l) = (if p ev then 1 else 0) + count p l.
Proof. unfold count. simpl. now destruct (p ev). Qed.

Lemma count_nil p : count p [] = 0.
Proof. reflexivity. Qed.

Lemma count_prints p (ms : list message) :
  (forall m, p (Print m) = false) -> count p (map Print ms) = 0.
Proof.
  intros Hp. induction ms as [|m ms IH]; [reflexivity|].
  simpl. rewrite count_cons, Hp, IH. reflexivity.
Qed.

(** Runs the monadic plumbing of a goal down to the next call it
    cannot see through. *)
Ltac run :=
  cbv beta iota zeta delta
    [mbind M_bind bind mret M_ret ret lift raise try_except print emit
     sys_exit session_get session_post response_json input time_sleep
     is_Exception is_FileNotFoundError is_ValueError];
  cbn [world stdin out status_code json cookies fst snd map negb].

(** Brings a log to the form [l ++ a :: b :: ...]. *)
Ltac norm_log :=
  cbn [map]; repeat (rewrite <- !app_assoc; cbn [app]); cbn [app].

(** ** The report submitter *)

Section Submitter.

Context {World : Type}.
Variable http_post :
  gmap string value -> string -> gmap string value -> World ->
  option response * World.

(** [report_account] always returns; it sends one request and may print
    one error line. *)
Lemma report_account_returns self user_id reason (st : state World) :
  exists b w errs,
    report_account http_post self user_id reason st =
      (Ok b,
       {| world := w; stdin := stdin st;
          out := (out st ++ [Post report_url (report_payload user_id reason)])
                   ++ map Print errs |}) /\
    (b = true <->
     exists resp,
       fst (http_post (cookies self) report_url
              (report_payload user_id reason) (world st)) = Some resp /\
       accepted resp).
Proof.
  unfold report_account, accepted. run.
  destruct (http_post _ _ _ _) as [[[sc body]|] w] eqn:Hp; run.
  - destruct (sc =? 200)%Z eqn:Hs; run.
    + apply Z.eqb_eq in Hs.
      destruct body as [[|b|n|f|s|l|d]|]; cbn [PyObj.get_default]; run;
        try solve [eexists false, w, [_]; split;
                   [reflexivity|]; split; [discriminate|];
                   intros (r & Hr & _ & d & Hd & _); simplify_eq/=].
      exists (PyObj.eq_zero (default (VInt 0) (d !! "status_code"))), w, [].
      split; [now rewrite app_nil_r|]. split.
      * intros Hb. eexists. split; [reflexivity|]. cbn. eauto.
      * intros (r & Hr & _ & d' & Hd & Hz). simplify_eq/=. exact Hz.
    + exists false, w, []. split; [now rewrite app_nil_r|].
      split; [discriminate|].
      intros (r & Hr & Hsc & _). simplify_eq/=.
  - eexists false, w, [_]. split; [reflexivity|].
    split; [discriminate|]. intros (r & Hr & _). discriminate.
Qed.

End Submitter.

(** ** The account resolver *)

Section Resolver.

Context {World : Type}.
Variable http_get :
  gmap string value -> string -> World -> option response * World.

(** [get_user_info] always returns; it sends one request and may print
    one error line. *)
Lemma get_user_info_returns self username (st : state World) :
  exists w ms,
    get_user_info http_get self username st =
      (Ok (resolved (fst (http_get (cookies self) (detail_url +:+ username)
                            (world st)))),
       {| world := w; stdin := stdin st;
          out := (out st ++ [Get (detail_url +:+ username)])
                   ++ map Print ms |}).
Proof.
  unfold get_user_info, resolved. run.
  destruct (http_get _ _ _) as [[[sc body]|] w] eqn:Hg; run.
  - destruct (sc =? 200)%Z; run.
    + destruct body as [v|]; run.
      * exists w, []. now rewrite app_nil_r.
      * now eexists w, [_].
    + exists w, []. now rewrite app_nil_r.
  - now eexists w, [_].
Qed.

End Resolver.

(** ** One turn of the loop *)

Section Turn.

Context {World : Type}.
Variable http_get :
  gmap string value -> string -> World -> option response * World.
Variable http_post :
  gmap string value -> string -> gmap string value -> World ->
  option response * World.
Variable self : TikTokMassReporter.
Variable reason : Z.
Variable delay : spec_float.
Variable total : nat.

Lemma str_truthy_false s : Py.str_truthy s = false <-> s = "".
Proof. destruct s; cbn; split; congruence. Qed.

Lemma str_truthy_true s : s <> "" -> Py.str_truthy s = true.
Proof. destruct s; cbn; congruence. Qed.

(** Every turn is one of the six above. *)
Lemma process_one_turn i username s f (st : state World) :
  exists r w log,
    process_one http_get http_post self reason delay total i username s f st =
      (r, {| world := w; stdin := stdin st; out := out st ++ log |}) /\
    turn reason delay total i username s f
      (resolved (fst (http_get (cookies self)
                        (detail_url +:+ normalize username) (world st))))
      r log.
Proof.
  unfold process_one.
  destruct (Py.str_truthy (normalize username)) eqn:Hu; cbn [negb].
  2:{ apply str_truthy_false in Hu. exists (Ok (s, f)), (world st), [].
      split; [|now constructor]. run. rewrite app_nil_r. now destruct st. }
  assert (Hne : normalize username <> "")
    by (intros E; rewrite E in Hu; discriminate).
  run.
  match goal with |- context [get_user_info _ _ _ ?st1] =>
    destruct (get_user_info_returns http_get self (normalize username) st1)
      as (w1 & ms & ->) end.
  cbn [world stdin out].
  set (v := resolved _).
  generalize (eq_refl (identity v)). unfold identity at 2.
  unfold user_missing.
  destruct (PyObj.truthy v); run.
  2:{ intros Hid. eexists _, w1, _. split; [|eapply (turn_not_found _ _ _ _ _ _ _ _ ms); eauto].
      now rewrite <- !app_assoc. }
  destruct (PyObj.get v "userInfo") as [ui|e]; run.
  2:{ intros Hid. eexists _, w1, _. split; [|eapply (turn_fault _ _ _ _ _ _ _ _ ms); eauto].
      now rewrite <- !app_assoc. }
  destruct (PyObj.truthy ui); run.
  2:{ intros Hid. eexists _, w1, _. split; [|eapply (turn_not_found _ _ _ _ _ _ _ _ ms); eauto].
      now rewrite <- !app_assoc. }
  destruct (PyObj.getitem v "userInfo") as [a|e]; run.
  2:{ intros Hid. eexists _, w1, _. split; [|eapply (turn_fault _ _ _ _ _ _ _ _ ms); eauto].
      now rewrite <- !app_assoc. }
  destruct (PyObj.getitem a "user") as [b|e]; run.
  2:{ intros Hid. eexists _, w1, _. split; [|eapply (turn_fault _ _ _ _ _ _ _ _ ms); eauto].
      now rewrite <- !app_assoc. }
  destruct (PyObj.getitem b "id") as [user_id|e]; run.
  2:{ intros Hid. eexists _, w1, _. split; [|eapply (turn_fault _ _ _ _ _ _ _ _ ms); eauto].
      now rewrite <- !app_assoc. }
  intros Hid.
  match goal with |- context [report_account _ _ _ _ ?st1] =>
    destruct (report_account_returns http_post self user_id reason st1)
      as (ok & w2 & ms' & -> & _) end.
  cbn [world stdin out].
  destruct (i <? total)%nat eqn:Hi.
  - apply Nat.ltb_lt in Hi.
    destruct (PyTime.sleep_error delay) as [e|] eqn:Hsl.
    + exists (Raise e), w2, (report_log reason total i (normalize username) ms user_id ms' ok
                               ++ [Print (MsgWaiting delay)]).
      split; [|eapply turn_wait_refused; eauto].
      unfold report_log. destruct ok; run; now norm_log.
    + exists (Ok (tally ok s f)), w2,
        (report_log reason total i (normalize username) ms user_id ms' ok
           ++ [Print (MsgWaiting delay); Sleep delay]).
      split; [|eapply turn_wait; eauto].
      unfold report_log. destruct ok; run; now norm_log.
  - apply Nat.ltb_ge in Hi.
    exists (Ok (tally ok s f)), w2,
      (report_log reason total i (normalize username) ms user_id ms' ok).
    split; [|eapply turn_last; eauto; lia].
    unfold report_log. destruct ok; run; now norm_log.
Qed.

(** A skipped entry leaves the whole state as it was. *)
Lemma process_one_skip i username s f (st : state World) :
  normalize username = "" ->
  process_one http_get http_post self reason delay total i username s f st =
    (Ok (s, f), st).
Proof.
  intros E. unfold process_one. rewrite E. reflexivity.
Qed.

(** *** The whole loop *)

Lemma process_loop_turns usernames : forall i s f (st : state World),
  exists r w log,
    process_loop http_get http_post self reason delay total i usernames s f st =
      (r, {| world := w; stdin := stdin st; out := out st ++ log |}) /\
    turns reason delay total i usernames s f r log.
Proof.
  induction usernames as [|username rest IH]; intros i s f st.
  - exists (Ok (s, f)), (world st), []. split; [|constructor].
    cbn. rewrite app_nil_r. now destruct st.
  - cbn [process_loop]. run.
    destruct (process_one_turn i username s f st) as (r & w & log & -> & Ht).
    destruct r as [[s' f']|e].
    + cbn [fst snd].
      destruct (IH (S i) s' f'
                  {| world := w; stdin := stdin st; out := out st ++ log |})
        as (r' & w' & log' & -> & Hts).
      cbn [world stdin out].
      exists r', w', (log ++ log'). split; [now rewrite app_assoc|].
      econstructor; eauto.
    + exists (Raise e), w, log. split; [reflexivity|].
      econstructor; eauto.
Qed.

(** The loop over [front ++ back] is the loop over [front] followed,
    when it returned, by the loop over [back] at the next position. *)
Lemma process_loop_app front back : forall i s f (st : state World),
  process_loop http_get http_post self reason delay total i (front ++ back) s f st =
    match process_loop http_get http_post self reason delay total i front s f st with
    | (Ok c, st') =>
        process_loop http_get http_post self reason delay total
          (i + length front) back (fst c) (snd c) st'
    | (Raise e, st') => (Raise e, st')
    end.
Proof.
  induction front as [|username front IH]; intros i s f st.
  - cbn. now rewrite Nat.add_0_r.
  - cbn [app process_loop length]. run.
    destruct (process_one _ _ _ _ _ _ _ _ _ _ _) as [[c|e] st1]; [|reflexivity].
    rewrite IH. now rewrite Nat.add_succ_comm.
Qed.

(** *** Counting over turns *)

Lemma count_report_log p i u ms user_id ms' ok :
  (forall m, p (Print m) = false) ->
  count p (report_log reason total i u ms user_id ms' ok) =
    (if p (Get (detail_url +:+ u)) then 1 else 0)
    + (if p (Post report_url (report_payload user_id reason)) then 1 else 0).
Proof.
  intros Hp. unfold report_log.
  rewrite !count_cons, !count_app, !count_cons, !count_app, !count_cons,
    !count_nil, !count_prints, !Hp by exact Hp.
  lia.
Qed.

Lemma tally_sum ok s f : fst (tally ok s f) + snd (tally ok s f) = s + f + 1.
Proof. destruct ok; cbn; lia. Qed.

(** A turn that returns has counted its entry once when it is not empty,
    has sent one lookup for it, at most one report, and has waited after
    the report exactly when the position is not the last. *)
Lemma turn_returns i username s f v s' f' log :
  turn reason delay total i username s f v (Ok (s', f')) log ->
  s' + f' = s + f + (if nonempty username then 1 else 0) /\
  s <= s' /\ f <= f' /\
  count is_get log = (if nonempty username then 1 else 0) /\
  count is_post log <= count is_get log /\
  count is_sleep log = (if (i <? total)%nat then count is_post log else 0).
Proof.
  unfold nonempty. intros H. inversion H; subst; clear H.
  - match goal with E : normalize _ = _ |- _ => rewrite E end. cbn.
    repeat split; try lia. now repeat case_match.
  - rewrite str_truthy_true by assumption.
    rewrite !count_cons, !count_app, !count_cons, !count_nil, !count_prints
      by reflexivity.
    cbn. repeat split; try lia. now repeat case_match.
  - rewrite str_truthy_true by assumption.
    rewrite !count_report_log by reflexivity. cbn [is_get is_post is_sleep].
    match goal with E : tally _ _ _ = _ |- _ =>
      pose proof (tally_sum ok s f) as Ht; rewrite E in Ht; cbn in Ht;
      assert (s <= s' /\ f <= f') as [? ?]
        by (destruct ok; cbn in E; injection E; lia) end.
    repeat split; try lia.
    destruct (Nat.ltb_spec i total); [contradiction|reflexivity].
  - rewrite str_truthy_true by assumption.
    rewrite !count_app, !count_report_log, !count_cons, !count_nil
      by reflexivity. cbn [is_get is_post is_sleep].
    match goal with E : tally _ _ _ = _ |- _ =>
      pose proof (tally_sum ok s f) as Ht; rewrite E in Ht; cbn in Ht;
      assert (s <= s' /\ f <= f') as [? ?]
        by (destruct ok; cbn in E; injection E; lia) end.
    repeat split; try lia.
    destruct (Nat.ltb_spec i total); [reflexivity|lia].
Qed.

Lemma N_nonEmpty_cons username rest :
  N_nonEmpty (username :: rest) =
    (if nonempty username then 1 else 0) + N_nonEmpty rest.
Proof. unfold N_nonEmpty. cbn. now destruct (nonempty username). Qed.

(** The same for a loop that returns: every entry that is not empty was
    counted once, and a wait follows each report made before the last
    position. *)
Lemma turns_returns usernames : forall i s f s' f' log,
  turns reason delay total i usernames s f (Ok (s', f')) log ->
  s' + f' = s + f + N_nonEmpty usernames /\
  s <= s' /\ f <= f' /\
  count is_get log = N_nonEmpty usernames /\
  count is_post log <= N_nonEmpty usernames /\
  (i + length usernames <= total -> count is_sleep log = count is_post log) /\
  (total <= i -> count is_sleep log = 0).
Proof.
  induction usernames as [|username rest IH]; intros i s f s' f' log H;
    inversion H; subst; clear H.
  - cbn. repeat split; lia.
  - match goal with
    | Ht : turn _ _ _ _ _ _ _ _ _ _, Hts : turns _ _ _ _ _ _ _ _ _ |- _ =>
        apply turn_returns in Ht; apply IH in Hts;
        destruct Ht as (Hc & Hs & Hf & Hg & Hp & Hsl);
        destruct Hts as (Hc' & Hs' & Hf' & Hg' & Hp' & Hsl' & Hsl0)
    end.
    rewrite N_nonEmpty_cons, !count_app. cbn [length].
    repeat split; try lia.
    + intros Hi. rewrite Hsl' by lia.
      destruct (Nat.ltb_spec i total); lia.
    + intros Hi. rewrite Hsl0 by lia.
      destruct (Nat.ltb_spec i total); lia.
Qed.

(** *** From the relation back to the functions *)

Lemma process_loop_returns usernames i s f (st st' : state World) s' f' :
  process_loop http_get http_post self reason delay total i usernames s f st =
    (Ok (s', f'), st') ->
  exists log,
    out st' = out st ++ log /\ stdin st' = stdin st /\
    s' + f' = s + f + N_nonEmpty usernames /\
    s <= s' /\ f <= f' /\
    count is_get log = N_nonEmpty usernames /\
    count is_post log <= N_nonEmpty usernames /\
    (i + length usernames <= total -> count is_sleep log = count is_post log) /\
    (total <= i -> count is_sleep log = 0).
Proof.
  intros H.
  destruct (process_loop_turns usernames i s f st) as (r & w & log & E & Ht).
  rewrite H in E. injection E as <- ->.
  exists log. split; [reflexivity|]. split; [reflexivity|].
  now apply turns_returns.
Qed.

(** [process_accounts] is the loop between two prints and the summary. *)
Lemma process_accounts_eq usernames (st : state World) :
  process_accounts http_get http_post self usernames reason delay st =
    match process_loop http_get http_post self reason delay
            (length usernames) 1 usernames 0 0 (started delay usernames st) with
    | (Ok c, st1) =>
        (Ok tt, {| world := world st1; stdin := stdin st1;
                   out := out st1 ++ summary usernames (fst c) (snd c) |})
    | (Raise e, st1) => (Raise e, st1)
    end.
Proof.
  unfold process_accounts, started, summary. run.
  rewrite <- app_assoc. cbn [app].
  destruct (process_loop _ _ _ _ _ _ _ _ _ _ _) as [[c|e] st1];
    [|reflexivity].
  now norm_log.
Qed.

(** *** Runs that complete *)

(** With a stub resolver and a delay that [time.sleep] accepts, every
    turn returns, and so do the loop and [process_accounts]. *)
Lemma process_loop_completes usernames :
  stub_resolver http_get ->
  PyTime.sleep_error delay = None ->
  forall i s f (st : state World),
  exists c st',
    process_loop http_get http_post self reason delay total i usernames s f st =
      (Ok c, st').
Proof.
  intros Hstub Hsl.
  induction usernames as [|username rest IH]; intros i s f st.
  - now exists (s, f), st.
  - cbn [process_loop]. run.
    destruct (process_one_turn i username s f st) as (r & w & log & -> & Ht).
    destruct (Hstub (cookies self) (detail_url +:+ normalize username)
                (world st)) as (o & Ho).
    inversion Ht; subst; clear Ht; try congruence; apply IH.
Qed.

End Turn.

(** ** Claims about the report submitter *)

(** C1, as stated, fails: a 200 whose body is the empty JSON object has
    no status field, and [report_account] returns [True] on it. *)
Lemma report_account_missing_status :
  fst (report_account Scenario.post_empty Scenario.reporter (VStr "1") 1004
         (Scenario.start [])) = Ok true /\
  ~ spec_success
      (fst (Scenario.post_empty (cookies Scenario.reporter) report_url
              (report_payload (VStr "1") 1004) tt)).
Proof.
  split; [reflexivity|].
  intros (resp & d & v & Hr & _ & Hj & Hl & _).
  cbn in Hr. injection Hr as <-. cbn in Hj. injection Hj as <-.
  rewrite lookup_empty in Hl. discriminate.
Qed.

(** C1, amended: [report_account] never raises, and it returns [True]
    exactly when the request got an answer with status 200 whose body
    decodes to a JSON object in which [status_code] is absent or equal
    to 0; a transport error, another status, a body that does not decode
    or that is not an object give [False]. *)
Theorem report_account_success_iff {World : Type}
    (http_post : gmap string value -> string -> gmap string value ->
                 World -> option response * World)
    (self : TikTokMassReporter) (user_id : value) (reason : Z)
    (st : state World) :
  exists b st',
    report_account http_post self user_id reason st = (Ok b, st') /\
    (b = true <->
     exists resp d,
       fst (http_post (cookies self) report_url
              (report_payload user_id reason) (world st)) = Some resp /\
       status_code resp = 200%Z /\
       json resp = Some (VDict d) /\
       (d !! "status_code" = None \/
        exists v, d !! "status_code" = Some v /\ PyObj.eq_zero v = true)).
Proof.
  destruct (report_account_returns http_post self user_id reason st)
    as (b & w & ms & E & Hb).
  exists b. eexists. split; [exact E|].
  rewrite Hb. unfold accepted. split.
  - intros (resp & Hr & Hs & d & Hj & Hz). exists resp, d.
    repeat split; try assumption.
    destruct (d !! "status_code") as [v|]; [right; eauto|now left].
  - intros (resp & d & Hr & Hs & Hj & Hz). exists resp.
    repeat split; try assumption. exists d. split; [assumption|].
    destruct Hz as [->|(v & -> & Hv)]; [reflexivity|exact Hv].
Qed.

(** ** Claims about the resolver *)

Lemma identity_none : identity VNone = Ok None.
Proof. reflexivity. Qed.

(** A transport error, a status other than 200 and a body that does not
    decode all come back from [get_user_info] as [None], which the loop
    takes for "user not found". *)
Lemma resolved_failure (r : option response) :
  r = None \/
  (exists resp, r = Some resp /\
     (status_code resp <> 200%Z \/ json resp = None)) ->
  identity (resolved r) = Ok None.
Proof.
  intros [->|(resp & -> & [Hs|Hj])]; cbn; [reflexivity| |].
  - apply Z.eqb_neq in Hs. now rewrite Hs.
  - rewrite Hj. now destruct (status_code resp =? 200)%Z.
Qed.

(** C2, where the code departs from it: the lookup answers 200 with a
    body whose [userInfo] is an object without [user]; the subscript
    raises [KeyError], nothing is counted for alice, carol is never
    looked up and no summary is printed. *)
Theorem lookup_without_user_aborts :
  process_accounts Scenario.get_no_user Scenario.post Scenario.reporter
    ["alice"; "carol"] 1004 Scenario.ten (Scenario.start []) =
  (Raise (KeyError "user"),
   {| world := tt; stdin := [];
      out := [Print (MsgStart 2); Print (MsgUsingDelay Scenario.ten);
              Print (MsgProcessing 1 2 "alice");
              Get (detail_url +:+ "alice")] |}).
Proof. vm_compute. reflexivity. Qed.

(** ** Claims about the loop *)

Lemma N_nonEmpty_all usernames :
  Forall (fun u => normalize u <> "") usernames ->
  N_nonEmpty usernames = length usernames.
Proof.
  induction 1 as [|u rest Hu _ IH]; [reflexivity|].
  rewrite N_nonEmpty_cons, IH. unfold nonempty.
  now rewrite str_truthy_true.
Qed.

Lemma N_nonEmpty_le usernames : N_nonEmpty usernames <= length usernames.
Proof.
  induction usernames as [|u rest IH]; [reflexivity|].
  rewrite N_nonEmpty_cons. cbn [length]. destruct (nonempty u); lia.
Qed.

(** C3, as stated, fails: in the scenario of the spec three handles are
    not empty, and the summary prints a total of 4. *)
Lemma total_counts_skipped_entries :
  N_nonEmpty Scenario.handles = 3 /\
  List.last
    (out (snd (process_accounts Scenario.get Scenario.post Scenario.reporter
                 Scenario.handles 1004 Scenario.ten (Scenario.start []))))
    (Print MsgBanner) = Print (MsgTotal 4).
Proof. split; vm_compute; reflexivity. Qed.

Section Loop.

Context {World : Type}.
Variable http_get :
  gmap string value -> string -> World -> option response * World.
Variable http_post :
  gmap string value -> string -> gmap string value -> World ->
  option response * World.
Variable self : TikTokMassReporter.
Variable reason : Z.
Variable delay : spec_float.

(** A run that completes ends its output with the summary of its
    counters, which add up to the number of handles that are not empty. *)
Lemma summary_counts_aux usernames (st st' : state World) :
  process_accounts http_get http_post self usernames reason delay st =
    (Ok tt, st') ->
  exists log s f,
    out st' = out st ++ log ++ summary usernames s f /\
    s + f = N_nonEmpty usernames.
Proof.
  rewrite process_accounts_eq.
  destruct (process_loop _ _ _ _ _ _ _ _ _ _ _) as [[[s f]|e] st1] eqn:E;
    [|discriminate].
  intros H. injection H as <-.
  apply process_loop_returns in E as (log & Ho & _ & Hc & _).
  cbn [out fst snd]. rewrite Ho. cbn [started out].
  exists ([Print (MsgStart (length usernames)); Print (MsgUsingDelay delay)]
            ++ log), s, f.
  split; [now norm_log|exact Hc].
Qed.

Lemma process_accounts_completes usernames (st : state World) :
  stub_resolver http_get ->
  PyTime.sleep_error delay = None ->
  exists st',
    process_accounts http_get http_post self usernames reason delay st =
      (Ok tt, st').
Proof.
  intros Hstub Hsl. rewrite process_accounts_eq.
  destruct (process_loop_completes http_get http_post self reason delay
              (length usernames) usernames Hstub Hsl 1 0 0
              (started delay usernames st)) as (c & st1 & ->).
  now eexists.
Qed.

(** C3, amended: a run that completes ends its output with the summary,
    in which the total is the length of the list, skipped entries
    included, and the two counters add up to the number of handles that
    are not empty after normalization; when no handle of a list of
    length N is empty, they add up to N, which is the total printed.
    With a stub resolver and a delay that [time.sleep] accepts, the run
    does complete. *)
Theorem summary_counts usernames (st : state World) :
  (forall st',
     process_accounts http_get http_post self usernames reason delay st =
       (Ok tt, st') ->
     exists log s f,
       out st' = out st ++ log ++ summary usernames s f /\
       s + f = N_nonEmpty usernames /\
       (Forall (fun u => normalize u <> "") usernames ->
        s + f = length usernames)) /\
  (stub_resolver http_get ->
   PyTime.sleep_error delay = None ->
   exists st',
     process_accounts http_get http_post self usernames reason delay st =
       (Ok tt, st')).
Proof.
  split; [|apply process_accounts_completes].
  intros st' E. apply summary_counts_aux in E as (log & s & f & Ho & Hc).
  exists log, s, f. split; [exact Ho|]. split; [exact Hc|].
  intros Hall. rewrite Hc. now apply N_nonEmpty_all.
Qed.

End Loop.

Lemma stub_resolver_scenario : stub_resolver Scenario.get.
Proof.
  intros c url w. unfold Scenario.get.
  repeat (destruct (String.eqb url _)); eexists; reflexivity.
Qed.

Lemma summary_counts_witness :
  let run :=
    process_accounts Scenario.get Scenario.post Scenario.reporter
      ["alice"; "carol"] 1004 Scenario.ten (Scenario.start []) in
  run = (Ok tt, snd run) /\
  (exists log s f,
     out (snd run) =
       out (Scenario.start []) ++ log ++ summary ["alice"; "carol"] s f /\
     s + f = N_nonEmpty ["alice"; "carol"] /\
     (Forall (fun u => normalize u <> "") ["alice"; "carol"] ->
      s + f = length ["alice"; "carol"])) /\
  stub_resolver Scenario.get /\
  PyTime.sleep_error Scenario.ten = None /\
  (exists st',
     process_accounts Scenario.get Scenario.post Scenario.reporter
       ["alice"; "carol"] 1004 Scenario.ten (Scenario.start []) =
       (Ok tt, st')).
Proof.
  intros run.
  destruct (summary_counts Scenario.get Scenario.post Scenario.reporter 1004
              Scenario.ten ["alice"; "carol"] (Scenario.start []))
    as [Hsum Hrun].
  assert (E : run = (Ok tt, snd run)) by (vm_compute; reflexivity).
  assert (Hsl : PyTime.sleep_error Scenario.ten = None)
    by (vm_compute; reflexivity).
  split; [exact E|]. split; [exact (Hsum _ E)|].
  split; [exact stub_resolver_scenario|]. split; [exact Hsl|].
  exact (Hrun stub_resolver_scenario Hsl).
Defined.

(** ** Claims about the delay *)

(** C4, as stated, fails both ways.  With two handles of which the first
    is not found there is no wait at all, where the claim counts one; with
    one handle followed by an entry that normalizes to empty there is a
    wait after the only handle, where the claim counts none. *)
Lemma delay_count_is_not_nonempty_minus_one :
  let sleeps usernames :=
    count is_sleep
      (out (snd (process_accounts Scenario.get Scenario.post
                   Scenario.reporter usernames 1004 Scenario.ten
                   (Scenario.start [])))) in
  (N_nonEmpty ["bob"; "alice"] - 1 = 1 /\ sleeps ["bob"; "alice"] = 0) /\
  (N_nonEmpty ["alice"; "@"] - 1 = 0 /\ sleeps ["alice"; "@"] = 1).
Proof. vm_compute. repeat split; reflexivity. Qed.

Section Delay.

Context {World : Type}.
Variable http_get :
  gmap string value -> string -> World -> option response * World.
Variable http_post :
  gmap string value -> string -> gmap string value -> World ->
  option response * World.
Variable self : TikTokMassReporter.
Variable reason : Z.
Variable delay : spec_float.

(** A turn that makes no report does not wait. *)
Lemma turn_quiet total i username s f v r log :
  turn reason delay total i username s f v r log ->
  normalize username = "" \/ identity v = Ok None \/
    (exists e, identity v = Raise e) ->
  count is_post log = 0 /\ count is_sleep log = 0.
Proof.
  intros H Hq. inversion H; subst; clear H;
    try (destruct Hq as [Hq|[Hq|[e' Hq]]]; congruence).
  - now split.
  - rewrite !count_cons, !count_app, !count_cons, !count_nil, !count_prints
      by reflexivity. now split.
  - rewrite !count_cons, !count_prints by reflexivity. now split.
Qed.

(** A turn makes at most one report. *)
Lemma turn_posts total i username s f v r log :
  turn reason delay total i username s f v r log -> count is_post log <= 1.
Proof.
  intros H. inversion H; subst; clear H;
    rewrite ?count_app, ?count_report_log, ?count_cons, ?count_app,
      ?count_cons, ?count_nil, ?count_prints by reflexivity;
    cbn [is_post]; lia.
Qed.

(** A wait is the last thing a turn does, after its report. *)
Lemma turn_wait_last total i username s f v r log :
  turn reason delay total i username s f v r log ->
  count is_sleep log = 0 \/
  exists pre,
    log = pre ++ [Print (MsgWaiting delay); Sleep delay] /\
    count is_post pre = 1 /\ count is_sleep pre = 0.
Proof.
  intros H. inversion H; subst; clear H;
    try (left;
         rewrite ?count_app, ?count_report_log, ?count_cons, ?count_app,
           ?count_cons, ?count_nil, ?count_prints by reflexivity;
         reflexivity).
  right. eexists. split; [reflexivity|].
  rewrite !count_report_log by reflexivity. now split.
Qed.

Lemma process_one_waits total i username s f (st st' : state World) r :
  process_one http_get http_post self reason delay total i username s f st =
    (r, st') ->
  exists log,
    out st' = out st ++ log /\
    count is_post log <= 1 /\
    (normalize username = "" \/
     identity (resolved (fst (http_get (cookies self)
                                (detail_url +:+ normalize username)
                                (world st)))) = Ok None ->
     count is_post log = 0 /\ count is_sleep log = 0) /\
    (forall c, r = Ok c ->
     count is_sleep log = if (i <? total)%nat then count is_post log else 0) /\
    (count is_sleep log = 0 \/
     exists pre,
       log = pre ++ [Print (MsgWaiting delay); Sleep delay] /\
       count is_post pre = 1 /\ count is_sleep pre = 0).
Proof.
  intros E.
  destruct (process_one_turn http_get http_post self reason delay total
              i username s f st) as (r' & w & log & E' & Ht).
  rewrite E in E'. injection E' as -> ->.
  exists log. split; [reflexivity|]. split; [|split; [|split]].
  - eapply turn_posts; exact Ht.
  - intros Hq. eapply turn_quiet; [exact Ht|]. tauto.
  - intros [s' f'] ->. now apply turn_returns in Ht.
  - eapply turn_wait_last; exact Ht.
Qed.

(** C4, amended: the wait belongs to the report.  In a run that
    completes, every report made for an entry before the last position of
    the list is followed by one wait, whether the report succeeded or
    not, and there is no other wait: the number of waits is the number of
    reports made before the last entry, so it is N - 1 when each of the N
    entries got its report.  A turn whose handle is empty or is not found
    makes no report and does not wait; a turn at the last position does
    not wait; and a wait is the last thing its turn does, after the
    report, so that none comes before the first request. *)
Theorem delay_follows_report :
  (forall front last (st st' : state World),
     process_accounts http_get http_post self (front ++ [last]) reason delay st =
       (Ok tt, st') ->
     exists c st1 log1 log,
       process_loop http_get http_post self reason delay
         (length (front ++ [last])) 1 front 0 0
         (started delay (front ++ [last]) st) = (Ok c, st1) /\
       out st1 = out (started delay (front ++ [last]) st) ++ log1 /\
       out st' = out st ++ log /\
       count is_sleep log = count is_post log1 /\
       count is_post log1 <= count is_post log <= count is_post log1 + 1 /\
       (count is_post log = length (front ++ [last]) ->
        count is_sleep log = length (front ++ [last]) - 1)) /\
  (forall total i username s f (st st' : state World) r,
     process_one http_get http_post self reason delay total i username s f st =
       (r, st') ->
     exists log,
       out st' = out st ++ log /\
       count is_post log <= 1 /\
       (normalize username = "" \/
        identity (resolved (fst (http_get (cookies self)
                                   (detail_url +:+ normalize username)
                                   (world st)))) = Ok None ->
        count is_post log = 0 /\ count is_sleep log = 0) /\
       (forall c, r = Ok c ->
        count is_sleep log =
          if (i <? total)%nat then count is_post log else 0) /\
       (count is_sleep log = 0 \/
        exists pre,
          log = pre ++ [Print (MsgWaiting delay); Sleep delay] /\
          count is_post pre = 1 /\ count is_sleep pre = 0)).
Proof.
  split; [|apply process_one_waits].
  intros front last st st'. rewrite process_accounts_eq.
  set (total := length (front ++ [last])).
  set (st0 := started delay (front ++ [last]) st).
  rewrite process_loop_app.
  destruct (process_loop _ _ _ _ _ _ _ front _ _ _) as [[[s1 f1]|e] st1] eqn:E1;
    [|discriminate].
  cbn [fst snd process_loop]. run.
  destruct (process_one _ _ _ _ _ _ _ _ _ _ _) as [[[s2 f2]|e] st2] eqn:E2;
    [|discriminate].
  intros H. injection H as <-.
  assert (Htot : total = length front + 1)
    by (unfold total; now rewrite length_app).
  apply process_loop_returns in E1
    as (log1 & Ho1 & _ & _ & _ & _ & _ & Hp1 & Hsl1 & _).
  specialize (Hsl1 ltac:(lia)).
  apply process_one_waits in E2 as (log2 & Ho2 & Hp2 & _ & Hsl2 & _).
  specialize (Hsl2 _ eq_refl).
  rewrite (proj2 (Nat.ltb_ge _ _)) in Hsl2 by lia.
  exists (s1, f1), st1, log1.
  exists ([Print (MsgStart total); Print (MsgUsingDelay delay)] ++ log1 ++ log2
            ++ summary (front ++ [last]) s2 f2).
  split; [reflexivity|]. split; [exact Ho1|]. split.
  { cbn [out]. rewrite Ho2, Ho1. unfold st0, started. cbn [out].
    fold total. now norm_log. }
  unfold summary.
  rewrite !count_app, !count_cons, !count_nil. cbn [is_sleep is_post].
  pose proof (N_nonEmpty_le front).
  repeat split; try lia.
Qed.

End Delay.

Lemma delay_follows_report_witness :
  let run :=
    process_accounts Scenario.get Scenario.post Scenario.reporter
      (["alice"] ++ ["carol"]) 1004 Scenario.ten (Scenario.start []) in
  let turn :=
    process_one Scenario.get Scenario.post Scenario.reporter 1004
      Scenario.ten 2 1 "bob" 0 0 (Scenario.start []) in
  run = (Ok tt, snd run) /\
  (exists c st1 log1 log,
     process_loop Scenario.get Scenario.post Scenario.reporter 1004
       Scenario.ten (length (["alice"] ++ ["carol"])) 1 ["alice"] 0 0
       (started Scenario.ten (["alice"] ++ ["carol"]) (Scenario.start [])) =
       (Ok c, st1) /\
     out st1 =
       out (started Scenario.ten (["alice"] ++ ["carol"]) (Scenario.start []))
       ++ log1 /\
     out (snd run) = out (Scenario.start []) ++ log /\
     count is_sleep log = count is_post log1 /\
     count is_post log1 <= count is_post log <= count is_post log1 + 1 /\
     (count is_post log = length (["alice"] ++ ["carol"]) ->
      count is_sleep log = length (["alice"] ++ ["carol"]) - 1)) /\
  turn = (Ok (0, 1), snd turn) /\
  (exists log,
     out (snd turn) = out (Scenario.start []) ++ log /\
     count is_post log <= 1 /\
     (normalize "bob" = "" \/
      identity (resolved (fst (Scenario.get (cookies Scenario.reporter)
                                 (detail_url +:+ normalize "bob")
                                 (world (Scenario.start []))))) = Ok None ->
      count is_post log = 0 /\ count is_sleep log = 0) /\
     (forall c, Ok (0, 1) = Ok c ->
      count is_sleep log = if (1 <? 2)%nat then count is_post log else 0) /\
     (count is_sleep log = 0 \/
      exists pre,
        log = pre ++ [Print (MsgWaiting Scenario.ten); Sleep Scenario.ten] /\
        count is_post pre = 1 /\ count is_sleep pre = 0)).
Proof.
  intros run turn.
  destruct (delay_follows_report Scenario.get Scenario.post Scenario.reporter
              1004 Scenario.ten) as [Hrun Hturn].
  assert (Er : run = (Ok tt, snd run)) by (vm_compute; reflexivity).
  assert (Et : turn = (Ok (0, 1), snd turn)) by (vm_compute; reflexivity).
  split; [exact Er|]. split; [exact (Hrun _ _ _ _ Er)|].
  split; [exact Et|]. exact (Hturn _ _ _ _ _ _ _ _ Et).
Defined.

(** ** Claims about the tally *)

Lemma skipped_plus_nonempty usernames :
  N_nonEmpty usernames + skipped usernames = length usernames.
Proof.
  unfold N_nonEmpty, skipped.
  induction usernames as [|u rest IH]; [reflexivity|].
  cbn. destruct (nonempty u); cbn; lia.
Qed.

Section Tally.

Context {World : Type}.
Variable http_get :
  gmap string value -> string -> World -> option response * World.
Variable http_post :
  gmap string value -> string -> gmap string value -> World ->
  option response * World.
Variable self : TikTokMassReporter.
Variable reason : Z.
Variable delay : spec_float.

(** X17: after the turns of any prefix [front] of the list that
    returned, the two counters add up to the number of handles of the
    prefix that are not empty, which is at most the total, and the loop
    goes on from there; when the run completes they add up to the total
    minus the skipped entries, and this is what the summary prints; a
    turn that returns leaves the counters alone for an empty handle and
    adds one to exactly one of them otherwise, whether the handle was
    reported, not found or its report turned down. *)
Theorem tally_invariant :
  (forall front back (st st1 : state World) s f,
     process_loop http_get http_post self reason delay
       (length (front ++ back)) 1 front 0 0 st = (Ok (s, f), st1) ->
     s + f <= length (front ++ back) /\
     s + f = N_nonEmpty front /\
     process_loop http_get http_post self reason delay
       (length (front ++ back)) 1 (front ++ back) 0 0 st =
     process_loop http_get http_post self reason delay
       (length (front ++ back)) (1 + length front) back s f st1) /\
  (forall usernames (st st' : state World),
     process_accounts http_get http_post self usernames reason delay st =
       (Ok tt, st') ->
     exists log s f,
       out st' = out st ++ log ++ summary usernames s f /\
       s + f = length usernames - skipped usernames) /\
  (forall total i username s f (st st' : state World) s' f',
     process_one http_get http_post self reason delay total i username s f st =
       (Ok (s', f'), st') ->
     if nonempty username
     then (s' = s + 1 /\ f' = f) \/ (s' = s /\ f' = f + 1)
     else s' = s /\ f' = f).
Proof.
  split; [|split].
  - intros front back st st1 s f E.
    rewrite process_loop_app, E. cbn [fst snd].
    apply process_loop_returns in E as (log & _ & _ & Hc & _).
    pose proof (N_nonEmpty_le front). rewrite length_app.
    repeat split; lia.
  - intros usernames st st' E.
    apply summary_counts_aux in E as (log & s & f & Ho & Hc).
    exists log, s, f. split; [exact Ho|].
    pose proof (skipped_plus_nonempty usernames). lia.
  - intros total i username s f st st' s' f' E.
    destruct (process_one_turn http_get http_post self reason delay total
                i username s f st) as (r & w & log & E' & Ht).
    rewrite E in E'. injection E' as <- _.
    apply turn_returns in Ht as (Hc & Hs & Hf & _).
    destruct (nonempty username); lia.
Qed.

End Tally.

Lemma tally_invariant_witness :
  let st0 := started Scenario.ten Scenario.handles (Scenario.start []) in
  let front := ["alice"; "@bob"] in
  let back := ["  "; "carol"] in
  let prefix :=
    process_loop Scenario.get Scenario.post Scenario.reporter 1004
      Scenario.ten (length (front ++ back)) 1 front 0 0 st0 in
  let run :=
    process_accounts Scenario.get Scenario.post Scenario.reporter
      Scenario.handles 1004 Scenario.ten (Scenario.start []) in
  let turn :=
    process_one Scenario.get Scenario.post Scenario.reporter 1004
      Scenario.ten 4 4 "carol" 1 1 st0 in
  prefix = (Ok (1, 1), snd prefix) /\
  (1 + 1 <= length (front ++ back) /\ 1 + 1 = N_nonEmpty front /\
   process_loop Scenario.get Scenario.post Scenario.reporter 1004
     Scenario.ten (length (front ++ back)) 1 (front ++ back) 0 0 st0 =
   process_loop Scenario.get Scenario.post Scenario.reporter 1004
     Scenario.ten (length (front ++ back)) (1 + length front) back 1 1
     (snd prefix)) /\
  run = (Ok tt, snd run) /\
  (exists log s f,
     out (snd run) = out (Scenario.start []) ++ log
                     ++ summary Scenario.handles s f /\
     s + f = length Scenario.handles - skipped Scenario.handles) /\
  turn = (Ok (1, 2), snd turn) /\
  (if nonempty "carol"
   then (1 = 1 + 1 /\ 2 = 1) \/ (1 = 1 /\ 2 = 1 + 1)
   else 1 = 1 /\ 2 = 1).
Proof.
  intros st0 front back prefix run turn.
  destruct (tally_invariant Scenario.get Scenario.post Scenario.reporter
              1004 Scenario.ten) as (Hstep & Hend & Honce).
  assert (Ep : prefix = (Ok (1, 1), snd prefix)) by (vm_compute; reflexivity).
  assert (Er : run = (Ok tt, snd run)) by (vm_compute; reflexivity).
  assert (Et : turn = (Ok (1, 2), snd turn)) by (vm_compute; reflexivity).
  split; [exact Ep|]. split; [exact (Hstep front back _ _ _ _ Ep)|].
  split; [exact Er|]. split; [exact (Hend _ _ _ Er)|].
  split; [exact Et|]. exact (Honce _ _ _ _ _ _ _ _ _ Et).
Defined.

(** C5, where the code departs from it: "alice" and "carol" are handles
    that are not empty; the lookup of alice answers 200 with a body whose
    [userInfo] is an object without [user], and the turn leaves with
    [KeyError] at the subscript, before the branch that counts: it hands
    back no counters, whatever they were, and so does the loop, in which
    carol gets no turn at all. *)
Theorem fault_leaves_handle_untallied :
  nonempty "alice" = true /\ nonempty "carol" = true /\
  N_nonEmpty ["alice"; "carol"] = 2 /\
  (forall s f,
     process_one Scenario.get_no_user Scenario.post Scenario.reporter 1004
       Scenario.ten 2 1 "alice" s f (Scenario.start []) =
     (Raise (KeyError "user"),
      {| world := tt; stdin := [];
         out := [Print (MsgProcessing 1 2 "alice");
                 Get (detail_url +:+ "alice")] |})) /\
  process_loop Scenario.get_no_user Scenario.post Scenario.reporter 1004
    Scenario.ten 2 1 ["alice"; "carol"] 0 0 (Scenario.start []) =
  (Raise (KeyError "user"),
   {| world := tt; stdin := [];
      out := [Print (MsgProcessing 1 2 "alice");
              Get (detail_url +:+ "alice")] |}).
Proof.
  split; [reflexivity|]. split; [reflexivity|]. split; [reflexivity|].
  split; [intros s f|]; vm_compute; reflexivity.
Qed.

(** ** Claims about normalization *)

(** C6, as stated, fails: a marker inside the handle is removed too. *)
Lemma normalize_drops_inner_marker :
  normalize "a@b" = "ab" /\ spec_normalize "a@b" = "a@b" /\
  normalize "a@b" <> spec_normalize "a@b".
Proof. repeat split. discriminate. Qed.

Lemma replace_marker s : Py.replace s "@" "" = without "@" s.
Proof.
  unfold Py.replace. induction s as [|a s IH]; [reflexivity|].
  cbn [Py.replace_from Py.startswith without String.length Nat.sub].
  rewrite Ascii.eqb_sym. destruct (Ascii.eqb a "@"); cbn; now rewrite IH.
Qed.

Section Normalize.

Context {World : Type}.
Variable http_get :
  gmap string value -> string -> World -> option response * World.
Variable http_post :
  gmap string value -> string -> gmap string value -> World ->
  option response * World.
Variable self : TikTokMassReporter.
Variable reason : Z.
Variable delay : spec_float.

(** C6, amended: normalization trims the surrounding white space and
    then removes every marker character, wherever it stands; the other
    characters are kept, in their order.  A handle that normalizes to
    empty is skipped: the turn calls neither the resolver nor the
    submitter, and leaves the counters and the whole state as they
    were. *)
Theorem normalize_removes_every_marker :
  (forall username, normalize username = without "@" (Py.strip username)) /\
  (forall total i username s f (st : state World),
     normalize username = "" ->
     process_one http_get http_post self reason delay total i username s f st =
       (Ok (s, f), st)).
Proof.
  split.
  - intros username. apply replace_marker.
  - intros. now apply process_one_skip.
Qed.

End Normalize.

Lemma normalize_removes_every_marker_witness :
  normalize " @ " = "" /\
  process_one Scenario.get Scenario.post Scenario.reporter 1004 Scenario.ten
    4 2 " @ " 1 0 (Scenario.start []) = (Ok (1, 0), Scenario.start []).
Proof.
  split; [reflexivity|].
  apply (proj2 (normalize_removes_every_marker Scenario.get Scenario.post
                  Scenario.reporter 1004 Scenario.ten)).
  reflexivity.
Defined.

(** ** Claims about the prompts *)

Lemma reasons_range :
  map_Forall (fun _ code => (1001 <= code <= 1008)%Z) reasons.
Proof.
  unfold reasons.
  repeat (apply map_Forall_insert_2; [lia|]).
  apply map_Forall_empty.
Qed.

Lemma parse_choice_range line code :
  parse_choice line = Some code -> (1001 <= code <= 1008)%Z.
Proof. unfold parse_choice. intros H. exact (reasons_range _ _ H). Qed.

(** The menu: the eight digits and nothing else. *)
Lemma parse_choice_accepts line code :
  parse_choice line = Some code <->
  exists k, 1 <= k <= 8 /\
    Py.str_or (Py.strip line) "4" = digit k /\
    code = (1000 + Z.of_nat k)%Z.
Proof.
  unfold parse_choice. split.
  - generalize (Py.str_or (Py.strip line) "4"). intros choice.
    unfold reasons. rewrite !lookup_insert_Some, lookup_singleton_Some.
    intros H.
    repeat (destruct H as [[<- <-]|[_ H]];
            [first [ exists 1; now repeat split; lia
                   | exists 2; now repeat split; lia
                   | exists 3; now repeat split; lia
                   | exists 4; now repeat split; lia
                   | exists 5; now repeat split; lia
                   | exists 6; now repeat split; lia
                   | exists 7; now repeat split; lia ]|]).
    destruct H as [<- <-]. exists 8. now repeat split; lia.
  - intros (k & Hk & -> & ->).
    destruct k as [|[|[|[|[|[|[|[|[|k]]]]]]]]]; try lia; reflexivity.
Qed.

Lemma parse_choice_rejects line :
  parse_choice line = None <->
  forall k, 1 <= k <= 8 -> Py.str_or (Py.strip line) "4" <> digit k.
Proof.
  split.
  - intros H k Hk E.
    assert (A : parse_choice line = Some (1000 + Z.of_nat k)%Z)
      by (apply parse_choice_accepts; exists k; auto).
    congruence.
  - intros H. destruct (parse_choice line) as [code|] eqn:E; [|reflexivity].
    apply parse_choice_accepts in E. destruct E as (k & Hk & E & _).
    now destruct (H k Hk).
Qed.

Section Prompts.

Context {World : Type}.

(** The fuel does not matter once it covers the lines left. *)
Lemma reason_loop_fuel n : forall m (st : state World),
  length (stdin st) <= n -> length (stdin st) <= m ->
  reason_loop n st = reason_loop m st.
Proof.
  induction n as [|n IH]; intros m [w lines o] Hn Hm; cbn [stdin] in *.
  - destruct lines; [|cbn in Hn; lia].
    destruct m; reflexivity.
  - destruct lines as [|line rest]; [destruct m; reflexivity|].
    destruct m as [|m]; [cbn in Hm; lia|].
    cbn [reason_loop]. run.
    destruct (parse_choice line); [reflexivity|]. run.
    apply IH; cbn [stdin length] in *; lia.
Qed.

Lemma reason_loop_range n : forall (st st' : state World) code,
  reason_loop n st = (Ok code, st') -> (1001 <= code <= 1008)%Z.
Proof.
  induction n as [|n IH]; intros [w lines o] st' code;
    cbn [reason_loop]; run; destruct lines as [|line rest];
    try discriminate;
    destruct (parse_choice line) as [c|] eqn:E; run;
    try discriminate; try (intros H; injection H as <- _;
                           exact (parse_choice_range _ _ E)).
  apply IH.
Qed.

Lemma get_report_reason_eq (st : state World) :
  get_report_reason st =
    reason_loop (length (stdin st))
      {| world := world st; stdin := stdin st; out := out st ++ menu |}.
Proof. unfold get_report_reason, menu. run. now norm_log. Qed.

(** A rejected answer costs the complaint and one more question. *)
Lemma get_report_reason_again (w : World) line rest o :
  parse_choice line = None ->
  get_report_reason {| world := w; stdin := line :: rest; out := o |} =
    reason_loop (length rest)
      {| world := w; stdin := rest;
         out := o ++ menu
                ++ [Print MsgEnterChoice; Print MsgInvalidChoice] |}.
Proof.
  intros H. rewrite get_report_reason_eq. cbn [world stdin out length].
  cbn [reason_loop]. run. rewrite H. run. now norm_log.
Qed.

(** C7: on the empty line the prompt returns 1004, the code of "Other";
    the answers it accepts are exactly the eight digits "1" to "8", white
    space around them aside, with the codes 1001 to 1008, so that "9",
    like every other answer, is rejected; on every rejected answer it
    prints the complaint and asks again, going on with the next line,
    which it returns the code of when that one is accepted, and it does
    not return when no line is left; whatever it returns is one of the
    codes 1001 to 1008. *)
Theorem reason_prompt :
  parse_choice "" = Some 1004%Z /\
  parse_choice "9" = None /\
  (forall line code,
     parse_choice line = Some code <->
     exists k, 1 <= k <= 8 /\
       Py.str_or (Py.strip line) "4" = digit k /\
       code = (1000 + Z.of_nat k)%Z) /\
  (forall line,
     parse_choice line = None <->
     forall k, 1 <= k <= 8 -> Py.str_or (Py.strip line) "4" <> digit k) /\
  (forall (w : World) rest o,
     get_report_reason
       {| world := w; stdin := "" :: rest; out := o |} =
     (Ok 1004%Z,
      {| world := w; stdin := rest;
         out := o ++ menu ++ [Print MsgEnterChoice] |})) /\
  (forall (w : World) line rest o,
     parse_choice line = None ->
     get_report_reason
       {| world := w; stdin := line :: rest; out := o |} =
     reason_loop (length rest)
       {| world := w; stdin := rest;
          out := o ++ menu
                 ++ [Print MsgEnterChoice; Print MsgInvalidChoice] |}) /\
  (forall (w : World) line next rest o code,
     parse_choice line = None ->
     parse_choice next = Some code ->
     get_report_reason
       {| world := w; stdin := line :: next :: rest; out := o |} =
     (Ok code,
      {| world := w; stdin := rest;
         out := o ++ menu
                ++ [Print MsgEnterChoice; Print MsgInvalidChoice;
                    Print MsgEnterChoice] |})) /\
  (forall (w : World) line o,
     parse_choice line = None ->
     fst (get_report_reason {| world := w; stdin := [line]; out := o |}) =
       Raise EOFError) /\
  (forall (st st' : state World) code,
     get_report_reason st = (Ok code, st') -> (1001 <= code <= 1008)%Z).
Proof.
  split; [reflexivity|]. split; [reflexivity|].
  split; [exact parse_choice_accepts|].
  split; [exact parse_choice_rejects|].
  split; [|split; [|split; [|split]]].
  - intros w rest o. rewrite get_report_reason_eq. cbn [stdin length].
    cbn [reason_loop]. run. change (parse_choice "") with (Some 1004%Z).
    now norm_log.
  - intros w line rest o H. now apply get_report_reason_again.
  - intros w line next rest o code H Hnext.
    rewrite get_report_reason_again by assumption.
    cbn [length reason_loop]. run. rewrite Hnext. now norm_log.
  - intros w line o H.
    rewrite get_report_reason_again by assumption. reflexivity.
  - intros st st' code H. rewrite get_report_reason_eq in H.
    now apply reason_loop_range in H.
Qed.

End Prompts.

Lemma reason_prompt_witness :
  let st := {| world := tt; stdin := ["10"; " 7 "; "y"]; out := [] |} in
  parse_choice "10" = None /\
  parse_choice " 7 " = Some 1007%Z /\
  get_report_reason st =
    (Ok 1007%Z,
     {| world := tt; stdin := ["y"];
        out := [] ++ menu
               ++ [Print MsgEnterChoice; Print MsgInvalidChoice;
                   Print MsgEnterChoice] |}) /\
  (1001 <= 1007 <= 1008)%Z.
Proof.
  intros st.
  assert (Hbad : parse_choice "10" = None) by reflexivity.
  assert (Hgood : parse_choice " 7 " = Some 1007%Z) by reflexivity.
  destruct (@reason_prompt unit) as (_ & _ & _ & _ & _ & _ & Hnext & _ & H).
  pose proof (Hnext tt "10" " 7 " ["y"] [] 1007%Z Hbad Hgood) as E.
  split; [exact Hbad|]. split; [exact Hgood|]. split; [exact E|].
  exact (H _ _ _ E).
Defined.

(** ** Claims about [main] *)

Lemma requests_app l1 l2 : requests (l1 ++ l2) = requests l1 ++ requests l2.
Proof. apply List.filter_app. Qed.

Lemma requests_prints ms : requests (map Print ms) = [].
Proof. induction ms as [|m ms IH]; [reflexivity|exact IH]. Qed.

Section Main.

Context {World : Type}.
Variable http_get :
  gmap string value -> string -> World -> option response * World.
Variable http_post :
  gmap string value -> string -> gmap string value -> World ->
  option response * World.

Lemma main_eq fs (st : state World) :
  main http_get http_post fs st =
    match startup http_get fs st with
    | (Ok x, st1) => confirm_and_report http_get http_post x st1
    | (Raise e, st1) => (Raise e, st1)
    end.
Proof.
  unfold main, startup, confirm_and_report, clear_screen, print_banner. run.
  destruct (load_cookies fs st) as [[c|e] st1]; [|reflexivity].
  destruct (check_cookies_valid _ _ _) as [[[|]|e] st2]; run;
    try reflexivity.
  destruct (load_usernames fs st2) as [[[|u us]|e] st3]; run; try reflexivity.
  destruct (get_report_reason _) as [[reason|e] st4]; [|reflexivity].
  destruct (get_delay st4) as [[delay|e] st5]; reflexivity.
Qed.

(** *** The startup, phase by phase *)

Lemma load_cookies_ok fs (st : state World) d :
  cookies_json fs = Holds (Some (VDict d)) ->
  load_cookies fs st = (Ok d, st).
Proof. intros E. unfold load_cookies, read_json. now rewrite E. Qed.

Lemma load_cookies_bad fs (st : state World) :
  cookies_json fs = Missing \/ cookies_json fs = Unreadable \/
  cookies_json fs = Holds None \/
  (exists v, cookies_json fs = Holds (Some v) /\ PyObj.is_dict v = false) ->
  exists ms,
    load_cookies fs st =
      (Raise (SystemExit 1),
       {| world := world st; stdin := stdin st;
          out := out st ++ map Print ms |}).
Proof.
  unfold load_cookies, read_json.
  intros [E|[E|[E|(v & E & Hv)]]]; rewrite E; run.
  - exists [MsgCookiesMissing; MsgCookiesHint]. now norm_log.
  - now eexists [_].
  - now eexists [_].
  - destruct v; try discriminate; run; now eexists [_].
Qed.

Lemma check_cookies_valid_returns self (st : state World) :
  exists w,
    check_cookies_valid http_get self st =
      (Ok (probe_ok (fst (http_get (cookies self) probe_url (world st)))),
       {| world := w; stdin := stdin st; out := out st ++ [Get probe_url] |}).
Proof.
  unfold check_cookies_valid, probe_ok. fold probe_url. run.
  destruct (http_get _ _ _) as [[resp|] w]; run; exists w; reflexivity.
Qed.

Lemma load_usernames_ok fs (st : state World) ls :
  usernames_txt fs = Holds ls ->
  load_usernames fs st =
    (Ok (map Py.strip
           (List.filter (fun line => Py.str_truthy (Py.strip line)) ls)), st).
Proof.
  intros E. unfold load_usernames, read_lines. rewrite E. reflexivity.
Qed.

Lemma load_usernames_bad fs (st : state World) :
  usernames_txt fs = Missing \/ usernames_txt fs = Unreadable ->
  exists ms,
    load_usernames fs st =
      (Raise (SystemExit 1),
       {| world := world st; stdin := stdin st;
          out := out st ++ map Print ms |}).
Proof.
  unfold load_usernames, read_lines. intros [E|E]; rewrite E; run.
  - exists [MsgUsernamesMissing; MsgUsernamesHint]. now norm_log.
  - now eexists [_].
Qed.

Lemma blank_lines_filtered ls :
  Forall (fun line => Py.strip line = "") ls ->
  List.filter (fun line => Py.str_truthy (Py.strip line)) ls = [].
Proof.
  induction 1 as [|l ls Hl _ IH]; [reflexivity|].
  cbn. now rewrite Hl, IH.
Qed.

(** *** The confirmation *)

Lemma main_confirmed fs (st st1 : state World) reporter usernames reason delay
    line rest :
  startup http_get fs st = (Ok (reporter, usernames, reason, delay), st1) ->
  stdin st1 = line :: rest ->
  Py.lower line = "y" ->
  main http_get http_post fs st =
    process_accounts http_get http_post reporter usernames reason delay
      (asked (length usernames) reason rest st1).
Proof.
  intros E Hin Hy. rewrite main_eq, E. unfold confirm_and_report, asked. run.
  rewrite Hin, Hy. cbn [String.eqb Ascii.eqb]. run.
  now norm_log.
Qed.

Lemma main_cancelled fs (st st1 : state World) reporter usernames reason delay
    line rest :
  startup http_get fs st = (Ok (reporter, usernames, reason, delay), st1) ->
  stdin st1 = line :: rest ->
  Py.lower line <> "y" ->
  main http_get http_post fs st =
    (Raise (SystemExit 0),
     {| world := world st1; stdin := rest;
        out := out st1 ++ [Print (MsgAbout (length usernames) reason);
                           Print MsgAreYouSure; Print MsgCancelled] |}).
Proof.
  intros E Hin Hy. rewrite main_eq, E. unfold confirm_and_report. run.
  rewrite Hin. apply String.eqb_neq in Hy. rewrite Hy. run.
  now norm_log.
Qed.

(** *** The fatal startup conditions *)

Lemma startup_bad_cookies fs (st : state World) :
  cookies_json fs = Missing \/ cookies_json fs = Unreadable \/
  cookies_json fs = Holds None \/
  (exists v, cookies_json fs = Holds (Some v) /\ PyObj.is_dict v = false) ->
  exists ms,
    main http_get http_post fs st =
      (Raise (SystemExit 1),
       {| world := world st; stdin := stdin st;
          out := out st ++ map Print ms |}).
Proof.
  intros H. destruct (load_cookies_bad fs st H) as (ms & E).
  exists ms. rewrite main_eq. unfold startup. run. now rewrite E.
Qed.

Lemma startup_not_live fs (st : state World) d :
  cookies_json fs = Holds (Some (VDict d)) ->
  fst (check_cookies_valid http_get (Reporter d) (greeted st)) = Ok false ->
  exists w,
    main http_get http_post fs st =
      (Raise (SystemExit 1),
       {| world := w; stdin := stdin st;
          out := out (greeted st)
                 ++ [Get probe_url; Print MsgInvalidCookies] |}).
Proof.
  intros Hc Hv. rewrite main_eq. unfold startup, clear_screen, print_banner.
  run. rewrite (load_cookies_ok _ _ _ Hc). run.
  destruct (check_cookies_valid_returns (Reporter d) (greeted st)) as (w & E).
  rewrite E in Hv. unfold greeted in E, Hv.
  cbn [fst cookies world stdin out] in E, Hv.
  injection Hv as Hv. rewrite Hv in E.
  revert E. norm_log. intros E. rewrite E. run.
  exists w. unfold greeted. cbn [out]. now norm_log.
Qed.

Lemma startup_no_usernames fs (st : state World) d :
  cookies_json fs = Holds (Some (VDict d)) ->
  fst (check_cookies_valid http_get (Reporter d) (greeted st)) = Ok true ->
  usernames_txt fs = Missing \/ usernames_txt fs = Unreadable \/
  (exists ls, usernames_txt fs = Holds ls /\
              Forall (fun line => Py.strip line = "") ls) ->
  exists w ms,
    main http_get http_post fs st =
      (Raise (SystemExit 1),
       {| world := w; stdin := stdin st;
          out := out (greeted st) ++ Get probe_url :: map Print ms |}).
Proof.
  intros Hc Hv Hu. rewrite main_eq. unfold startup, clear_screen, print_banner.
  run. rewrite (load_cookies_ok _ _ _ Hc). run.
  destruct (check_cookies_valid_returns (Reporter d) (greeted st)) as (w & E).
  rewrite E in Hv. unfold greeted in E, Hv.
  cbn [fst cookies world stdin out] in E, Hv.
  injection Hv as Hv. rewrite Hv in E.
  revert E. norm_log. intros E. rewrite E. run.
  exists w. unfold greeted. cbn [out].
  destruct Hu as [Hu|[Hu|(ls & Hu & Hb)]].
  - edestruct load_usernames_bad as (ms & ->); [left; exact Hu|].
    exists ms. cbn [world stdin out]. now norm_log.
  - edestruct load_usernames_bad as (ms & ->); [right; exact Hu|].
    exists ms. cbn [world stdin out]. now norm_log.
  - rewrite (load_usernames_ok _ _ _ Hu), (blank_lines_filtered _ Hb).
    cbn [map]. run. exists [MsgNoUsernames]. now norm_log.
Qed.

End Main.

Lemma lower_char_y c :
  Py.lower_char c = "y"%char -> c = "y"%char \/ c = "Y"%char.
Proof.
  destruct c as [[] [] [] [] [] [] [] []]; vm_compute; intros H;
    try discriminate H; auto.
Qed.

Lemma lower_y line : Py.lower line = "y" <-> line = "y" \/ line = "Y".
Proof.
  split.
  - destruct line as [|c [|c' rest]]; cbn; try discriminate.
    intros H. injection H as H.
    destruct (lower_char_y c H) as [->| ->]; auto.
  - intros [->| ->]; reflexivity.
Qed.

Section ExitCodes.

Context {World : Type}.
Variable http_get :
  gmap string value -> string -> World -> option response * World.
Variable http_post :
  gmap string value -> string -> gmap string value -> World ->
  option response * World.

Local Abbreviation main' := (main http_get http_post).
Local Abbreviation run' := (run http_get http_post).

(** C8: the process exits with 0 when [main] returns and when the
    confirmation is not affirmative, and with 1 when the credential file
    is missing, unreadable, not JSON or not a JSON object, when the
    liveness check returns false, and when the handle file is missing,
    unreadable or holds no handle.  In the last two cases the probe is
    the only request of the whole run, so that neither the resolver nor
    the submitter is invoked; with a bad credential file there is no
    request at all, and a cancelled run sends none after the startup. *)
Theorem exit_codes :
  (forall fs (st st' : state World),
     main' fs st = (Ok tt, st') -> run' fs st = (0%Z, st')) /\
  (forall fs (st st1 : state World) x line rest,
     startup http_get fs st = (Ok x, st1) ->
     stdin st1 = line :: rest ->
     Py.lower line <> "y" ->
     fst (run' fs st) = 0%Z /\
     requests (out (snd (run' fs st))) = requests (out st1)) /\
  (forall fs (st : state World),
     cookies_json fs = Missing \/ cookies_json fs = Unreadable \/
     cookies_json fs = Holds None \/
     (exists v, cookies_json fs = Holds (Some v) /\
                PyObj.is_dict v = false) ->
     fst (run' fs st) = 1%Z /\
     requests (out (snd (run' fs st))) = requests (out st)) /\
  (forall fs (st : state World) d,
     cookies_json fs = Holds (Some (VDict d)) ->
     fst (check_cookies_valid http_get (Reporter d) (greeted st)) = Ok false ->
     fst (run' fs st) = 1%Z /\
     requests (out (snd (run' fs st))) = requests (out st) ++ [Get probe_url]) /\
  (forall fs (st : state World) d,
     cookies_json fs = Holds (Some (VDict d)) ->
     fst (check_cookies_valid http_get (Reporter d) (greeted st)) = Ok true ->
     usernames_txt fs = Missing \/ usernames_txt fs = Unreadable \/
     (exists ls, usernames_txt fs = Holds ls /\
                 Forall (fun line => Py.strip line = "") ls) ->
     fst (run' fs st) = 1%Z /\
     requests (out (snd (run' fs st))) = requests (out st) ++ [Get probe_url]).
Proof.
  split; [|split; [|split; [|split]]].
  - intros fs st st' E. unfold run. now rewrite E.
  - intros fs st st1 [[[reporter usernames] reason] delay] line rest E Hin Hy.
    unfold run.
    rewrite (main_cancelled _ _ _ _ _ _ _ _ _ _ _ E Hin Hy).
    cbn [fst snd out exit_code]. split; [reflexivity|].
    rewrite requests_app. cbn. now rewrite app_nil_r.
  - intros fs st H. unfold run.
    destruct (startup_bad_cookies http_get http_post fs st H) as (ms & ->).
    cbn [fst snd out exit_code]. split; [reflexivity|].
    now rewrite requests_app, requests_prints, app_nil_r.
  - intros fs st d Hc Hv. unfold run.
    destruct (startup_not_live http_get http_post fs st d Hc Hv) as (w & ->).
    cbn [fst snd out exit_code greeted]. split; [reflexivity|].
    rewrite !requests_app. cbn. now rewrite app_nil_r.
  - intros fs st d Hc Hv Hu. unfold run.
    destruct (startup_no_usernames http_get http_post fs st d Hc Hv Hu)
      as (w & ms & ->).
    cbn [fst snd out exit_code greeted]. split; [reflexivity|].
    rewrite !requests_app.
    change (requests (Get probe_url :: map Print ms))
      with (Get probe_url :: requests (map Print ms)).
    rewrite requests_prints. cbn. now rewrite app_nil_r.
Qed.

(** C9: the run goes on to [process_accounts] exactly when the answer,
    put in lower case, is the one-letter string "y", that is when the
    answer is "y" or "Y"; on any other answer, "yes" among them, [main]
    prints that the operation is cancelled and exits with 0. *)
Theorem confirmation_gate :
  (forall line, Py.lower line = "y" <-> line = "y" \/ line = "Y") /\
  Py.lower "yes" <> "y" /\
  (forall fs (st st1 : state World) reporter usernames reason delay line rest,
     startup http_get fs st = (Ok (reporter, usernames, reason, delay), st1) ->
     stdin st1 = line :: rest ->
     (Py.lower line = "y" ->
      main' fs st =
        process_accounts http_get http_post reporter usernames reason delay
          (asked (length usernames) reason rest st1)) /\
     (Py.lower line <> "y" ->
      run' fs st =
        (0%Z,
         {| world := world st1; stdin := rest;
            out := out st1 ++ [Print (MsgAbout (length usernames) reason);
                               Print MsgAreYouSure; Print MsgCancelled] |}))).
Proof.
  split; [exact lower_y|]. split; [discriminate|].
  intros fs st st1 reporter usernames reason delay line rest E Hin. split.
  - intros Hy. now apply main_confirmed with (line := line).
  - intros Hy. unfold run.
    now rewrite (main_cancelled _ _ _ _ _ _ _ _ _ _ _ E Hin Hy).
Qed.

End ExitCodes.

Lemma exit_codes_witness :
  let ok := Scenario.start [""; "0"; "y"] in
  let no := Scenario.start [""; "0"; "n"] in
  let x := (Reporter Scenario.jar, ["alice"; "@bob"; "carol"], 1004%Z,
            S754_zero false) in
  let up := startup Scenario.get Scenario.good_files no in
  (run Scenario.get Scenario.post Scenario.good_files ok =
     (0%Z, snd (main Scenario.get Scenario.post Scenario.good_files ok))) /\
  (up = (Ok x, snd up) /\ stdin (snd up) = ["n"] /\ Py.lower "n" <> "y" /\
   fst (run Scenario.get Scenario.post Scenario.good_files no) = 0%Z /\
   requests (out (snd (run Scenario.get Scenario.post Scenario.good_files no)))
     = requests (out (snd up))) /\
  (fst (run Scenario.get Scenario.post Scenario.no_cookies ok) = 1%Z /\
   requests (out (snd (run Scenario.get Scenario.post Scenario.no_cookies ok)))
     = requests (out ok)) /\
  (fst (run Scenario.get_down Scenario.post Scenario.good_files ok) = 1%Z /\
   requests
     (out (snd (run Scenario.get_down Scenario.post Scenario.good_files ok)))
     = requests (out ok) ++ [Get probe_url]) /\
  (fst (run Scenario.get Scenario.post Scenario.blank_usernames ok) = 1%Z /\
   requests
     (out (snd (run Scenario.get Scenario.post Scenario.blank_usernames ok)))
     = requests (out ok) ++ [Get probe_url]).
Proof.
  intros ok no x up.
  destruct (exit_codes Scenario.get Scenario.post)
    as (Hret & Hno & Hcookies & _ & Hnames).
  destruct (exit_codes Scenario.get_down Scenario.post)
    as (_ & _ & _ & Hlive & _).
  assert (Eup : up = (Ok x, snd up)) by (vm_compute; reflexivity).
  assert (Ein : stdin (snd up) = ["n"]) by (vm_compute; reflexivity).
  assert (Hn : Py.lower "n" <> "y") by discriminate.
  split; [|split; [|split; [|split]]].
  - apply Hret. vm_compute. reflexivity.
  - split; [exact Eup|]. split; [exact Ein|]. split; [exact Hn|].
    exact (Hno _ _ _ _ _ _ Eup Ein Hn).
  - apply Hcookies. left. reflexivity.
  - apply (Hlive Scenario.good_files ok Scenario.jar); reflexivity.
  - apply (Hnames Scenario.blank_usernames ok Scenario.jar);
      [reflexivity|vm_compute; reflexivity|].
    right. right. exists ["  "; ""]. split; [reflexivity|].
    repeat constructor.
Defined.

Lemma confirmation_gate_witness :
  let yes := Scenario.start [""; "0"; "yes"] in
  let cap := Scenario.start [""; "0"; "Y"] in
  let x := (Reporter Scenario.jar, ["alice"; "@bob"; "carol"], 1004%Z,
            S754_zero false) in
  let up_yes := startup Scenario.get Scenario.good_files yes in
  let up_cap := startup Scenario.get Scenario.good_files cap in
  (up_yes = (Ok x, snd up_yes) /\ stdin (snd up_yes) = ["yes"] /\
   Py.lower "yes" <> "y" /\
   fst (run Scenario.get Scenario.post Scenario.good_files yes) = 0%Z) /\
  (up_cap = (Ok x, snd up_cap) /\ stdin (snd up_cap) = ["Y"] /\
   Py.lower "Y" = "y" /\
   main Scenario.get Scenario.post Scenario.good_files cap =
     process_accounts Scenario.get Scenario.post (Reporter Scenario.jar)
       ["alice"; "@bob"; "carol"] 1004 (S754_zero false)
       (asked 3 1004 [] (snd up_cap))).
Proof.
  intros yes cap x up_yes up_cap.
  destruct (confirmation_gate Scenario.get Scenario.post) as (_ & Hyes & Hgate).
  assert (Ey : up_yes = (Ok x, snd up_yes)) by (vm_compute; reflexivity).
  assert (Iy : stdin (snd up_yes) = ["yes"]) by (vm_compute; reflexivity).
  assert (Ec : up_cap = (Ok x, snd up_cap)) by (vm_compute; reflexivity).
  assert (Ic : stdin (snd up_cap) = ["Y"]) by (vm_compute; reflexivity).
  split.
  - split; [exact Ey|]. split; [exact Iy|]. split; [exact Hyes|].
    destruct (Hgate _ _ _ _ _ _ _ _ _ Ey Iy) as [_ H].
    now rewrite (H Hyes).
  - split; [exact Ec|]. split; [exact Ic|]. split; [reflexivity|].
    destruct (Hgate _ _ _ _ _ _ _ _ _ Ec Ic) as [H _].
    exact (H eq_refl).
Defined.

(** ** Claims about the delay prompt *)

Section DelayPrompt.

Context {World : Type}.
Variable http_get :
  gmap string value -> string -> World -> option response * World.
Variable http_post :
  gmap string value -> string -> gmap string value -> World ->
  option response * World.

(** The prompt hands on whatever [float] makes of the answer. *)
Lemma get_delay_parsed (w : World) line rest o d :
  PyFloat.of_string (Py.str_or line "10") = Some d ->
  get_delay {| world := w; stdin := line :: rest; out := o |} =
    (Ok d, {| world := w; stdin := rest; out := o ++ [Print MsgEnterDelay] |}).
Proof. intros H. unfold get_delay. run. now rewrite H. Qed.

(** A turn that has made its report before the last position raises what
    [time.sleep] raises on the delay. *)
Lemma process_one_sleep_refused self reason delay total i username s f
    (st : state World) user_id e :
  normalize username <> "" ->
  identity (resolved (fst (http_get (cookies self)
                             (detail_url +:+ normalize username)
                             (world st)))) = Ok (Some user_id) ->
  i < total ->
  PyTime.sleep_error delay = Some e ->
  exists st',
    process_one http_get http_post self reason delay total i username s f st =
      (Raise e, st') /\
    count is_post (out st') = count is_post (out st) + 1 /\
    count is_sleep (out st') = count is_sleep (out st).
Proof.
  intros Hne Hid Hi Hsl.
  destruct (process_one_turn http_get http_post self reason delay total
              i username s f st) as (r & w & log & E & Ht).
  rewrite E.
  inversion Ht; subst; clear Ht; try congruence; try lia.
  eexists. split; [apply f_equal2; [f_equal; congruence|reflexivity]|].
  cbn [out].
  rewrite !count_app, !count_report_log, !count_cons, !count_nil
    by reflexivity.
  cbn [is_post is_sleep]. lia.
Qed.

(** C10: the delay prompt returns, unchanged, any value that [float]
    parses from the answer; "-5" is such an answer and gives a negative
    delay, which [time.sleep] refuses with [ValueError]; [process_accounts]
    passes the delay on as it is, so that the first turn that has made
    its report before the last position raises instead of waiting.  In
    the scenario the run with the answers "", "-5" and "y" reports alice,
    raises [ValueError], never looks up the handles after her and exits
    with 1. *)
Theorem negative_delay_accepted :
  (forall (w : World) line rest o d,
     PyFloat.of_string (Py.str_or line "10") = Some d ->
     get_delay {| world := w; stdin := line :: rest; out := o |} =
       (Ok d,
        {| world := w; stdin := rest; out := o ++ [Print MsgEnterDelay] |})) /\
  (PyFloat.of_string (Py.str_or "-5" "10") = Some minus_five /\
   PyFloat.negative minus_five = true /\
   PyTime.sleep_error minus_five = Some ValueError) /\
  (forall self reason delay total i username s f (st : state World)
          user_id e,
     normalize username <> "" ->
     identity (resolved (fst (http_get (cookies self)
                                (detail_url +:+ normalize username)
                                (world st)))) = Ok (Some user_id) ->
     i < total ->
     PyTime.sleep_error delay = Some e ->
     exists st',
       process_one http_get http_post self reason delay total i username
         s f st = (Raise e, st') /\
       count is_post (out st') = count is_post (out st) + 1 /\
       count is_sleep (out st') = count is_sleep (out st)) /\
  (let r := main Scenario.get Scenario.post Scenario.good_files
              (Scenario.start [""; "-5"; "y"]) in
   fst r = Raise ValueError /\
   exit_code (fst r) = 1%Z /\
   requests (out (snd r)) =
     [Get probe_url; Get (detail_url +:+ "alice");
      Post report_url (report_payload (VStr "1") 1004)] /\
   List.last (out (snd r)) (Print MsgBanner) = Print (MsgWaiting minus_five)).
Proof.
  split; [exact get_delay_parsed|].
  split; [vm_compute; repeat split; reflexivity|].
  split; [exact process_one_sleep_refused|].
  vm_compute. repeat split; reflexivity.
Qed.

End DelayPrompt.

Lemma negative_delay_accepted_witness :
  let st := {| world := tt; stdin := ["-5"; "y"]; out := [] |} in
  let st2 := started minus_five ["alice"; "carol"] (Scenario.start []) in
  (PyFloat.of_string (Py.str_or "-5" "10") = Some minus_five /\
   get_delay st =
     (Ok minus_five,
      {| world := tt; stdin := ["y"]; out := [] ++ [Print MsgEnterDelay] |})) /\
  (normalize "alice" <> "" /\ 1 < 2 /\
   PyTime.sleep_error minus_five = Some ValueError /\
   exists st',
     process_one Scenario.get Scenario.post Scenario.reporter 1004 minus_five
       2 1 "alice" 0 0 st2 = (Raise ValueError, st') /\
     count is_post (out st') = count is_post (out st2) + 1 /\
     count is_sleep (out st') = count is_sleep (out st2)).
Proof.
  intros st st2.
  destruct (negative_delay_accepted Scenario.get Scenario.post)
    as (Hparse & (Hm & _ & Hsl) & Hturn & _).
  split.
  - split; [exact Hm|]. exact (Hparse tt "-5" ["y"] [] minus_five Hm).
  - assert (Hne : normalize "alice" <> "") by discriminate.
    assert (Hi : 1 < 2) by lia.
    split; [exact Hne|]. split; [exact Hi|]. split; [exact Hsl|].
    apply (Hturn Scenario.reporter 1004%Z minus_five 2 1 "alice" 0 0 st2
             (VStr "1") ValueError Hne); [reflexivity|exact Hi|exact Hsl].
Defined.

(** * Further properties *)

(** ** Trimming and normalization *)

Lemma lstrip_empty s : Py.lstrip s = "" <-> all_chars Py.isspace s = true.
Proof.
  induction s as [|c s IH]; cbn; [tauto|].
  destruct (Py.isspace c); cbn; [exact IH|]. split; discriminate.
Qed.

Lemma rstrip_empty s : Py.rstrip s = "" <-> all_chars Py.isspace s = true.
Proof.
  induction s as [|c s IH]; cbn; [tauto|].
  destruct (Py.rstrip s) as [|a r].
  - destruct (Py.isspace c); cbn.
    + split; [intros _; now apply IH|reflexivity].
    + split; discriminate.
  - split; [discriminate|]. intros H. apply andb_true_iff in H as [_ H].
    apply IH in H. discriminate.
Qed.

Lemma lstrip_all_space s :
  all_chars Py.isspace (Py.lstrip s) = all_chars Py.isspace s.
Proof.
  induction s as [|c s IH]; [reflexivity|]. cbn.
  destruct (Py.isspace c) eqn:E; cbn; [exact IH|now rewrite E].
Qed.

Lemma strip_empty s : Py.strip s = "" <-> all_chars Py.isspace s = true.
Proof. unfold Py.strip. now rewrite rstrip_empty, lstrip_all_space. Qed.

Lemma lstrip_head s : head_not_space (Py.lstrip s).
Proof.
  induction s as [|c s IH]; cbn; [exact I|].
  destruct (Py.isspace c) eqn:E; [exact IH|exact E].
Qed.

Lemma rstrip_head s : head_not_space s -> head_not_space (Py.rstrip s).
Proof.
  destruct s as [|c s]; cbn; [trivial|]. intros E.
  destruct (Py.rstrip s); [now rewrite E|exact E].
Qed.

Lemma lstrip_fixed s : head_not_space s -> Py.lstrip s = s.
Proof. destruct s as [|c s]; cbn; [trivial|]. now intros ->. Qed.

Lemma rstrip_idempotent s : Py.rstrip (Py.rstrip s) = Py.rstrip s.
Proof.
  induction s as [|c s IH]; [reflexivity|]. cbn.
  destruct (Py.rstrip s) as [|a r] eqn:E.
  - destruct (Py.isspace c) eqn:Ec; cbn; [reflexivity|now rewrite Ec].
  - cbn [Py.rstrip]. cbn [Py.rstrip] in IH.
    destruct (Py.rstrip r) as [|b r'].
    + destruct (Py.isspace a); [discriminate|]. now injection IH as ->.
    + now rewrite IH.
Qed.

Lemma strip_idempotent s : Py.strip (Py.strip s) = Py.strip s.
Proof.
  unfold Py.strip.
  rewrite (lstrip_fixed (Py.rstrip (Py.lstrip s)))
    by (apply rstrip_head, lstrip_head).
  apply rstrip_idempotent.
Qed.

Lemma without_no_marker s :
  all_chars (fun c => negb (is_marker c)) (without "@" s) = true.
Proof.
  induction s as [|c s IH]; [reflexivity|]. cbn.
  destruct (Ascii.eqb c "@") eqn:E; [exact IH|].
  cbn. unfold is_marker at 1. now rewrite E.
Qed.

Lemma without_empty s :
  without "@" s = "" <-> all_chars is_marker s = true.
Proof.
  induction s as [|c s IH]; cbn; [tauto|]. unfold is_marker at 1.
  destruct (Ascii.eqb c "@"); cbn; [exact IH|]. split; discriminate.
Qed.

Lemma without_length s : String.length (without "@" s) <= String.length s.
Proof.
  induction s as [|c s IH]; cbn; [lia|].
  destruct (Ascii.eqb c "@"); cbn; lia.
Qed.

Lemma lstrip_length s : String.length (Py.lstrip s) <= String.length s.
Proof.
  induction s as [|c s IH]; cbn; [lia|].
  destruct (Py.isspace c); cbn; lia.
Qed.

Lemma rstrip_length s : String.length (Py.rstrip s) <= String.length s.
Proof.
  induction s as [|c s IH]; cbn; [lia|].
  destruct (Py.rstrip s); [destruct (Py.isspace c)|]; cbn in *; lia.
Qed.

(** X1: a normalized handle holds no marker and is not longer than the
    entry it comes from; it is empty, so that the entry is skipped,
    exactly when the trimmed entry is made of markers only (which
    includes the entries of white space). *)
Theorem normalize_leaves_no_marker username :
  all_chars (fun c => negb (is_marker c)) (normalize username) = true /\
  String.length (normalize username) <= String.length username /\
  (normalize username = "" <->
   all_chars is_marker (Py.strip username) = true).
Proof.
  unfold normalize. rewrite replace_marker.
  split; [apply without_no_marker|]. split; [|apply without_empty].
  pose proof (without_length (Py.strip username)).
  pose proof (rstrip_length (Py.lstrip username)).
  pose proof (lstrip_length username). unfold Py.strip in *. lia.
Qed.

(** ** The handle file *)

Lemma kept_line line :
  Py.str_truthy (Py.strip line) = negb (all_chars Py.isspace line).
Proof.
  destruct (all_chars Py.isspace line) eqn:E; cbn.
  - apply strip_empty in E. now rewrite E.
  - apply str_truthy_true. intros H. apply strip_empty in H. congruence.
Qed.

Lemma filter_ext_bool {A} (p q : A -> bool) l :
  (forall x, p x = q x) -> List.filter p l = List.filter q l.
Proof.
  intros H. induction l as [|x l IH]; [reflexivity|].
  cbn. now rewrite H, IH.
Qed.

Lemma loaded_lines ls :
  Forall loaded
    (map Py.strip (List.filter (fun l => negb (all_chars Py.isspace l)) ls)).
Proof.
  induction ls as [|l ls IH]; cbn; [constructor|].
  destruct (all_chars Py.isspace l) eqn:E; cbn; [exact IH|].
  constructor; [|exact IH]. split; [|apply strip_idempotent].
  intros H. apply strip_empty in H. congruence.
Qed.

Section Loaders.

Context {World : Type}.

(** X2: from a readable handle file [load_usernames] returns, in their
    order, the trimmed lines that hold a character other than white
    space, and changes nothing else (no output, no request, no input
    read).  So every handle it returns is non-empty and trimmed, and the
    normalization of the loop only takes the markers out of it. *)
Theorem load_usernames_trims fs (st : state World) ls :
  usernames_txt fs = Holds ls ->
  let us :=
    map Py.strip (List.filter (fun l => negb (all_chars Py.isspace l)) ls) in
  load_usernames fs st = (Ok us, st) /\
  Forall loaded us /\
  Forall (fun u => normalize u = without "@" u) us.
Proof.
  intros E us. split; [|split].
  - unfold load_usernames, read_lines. rewrite E. run. unfold us.
    now rewrite (filter_ext_bool _ _ ls kept_line).
  - apply loaded_lines.
  - eapply List.Forall_impl; [|apply loaded_lines].
    intros u [_ Hu]. unfold normalize. now rewrite Hu, replace_marker.
Qed.

(** X3: the delay prompt reads one line and never fails on its content:
    an answer that [float] parses gives that value, any other answer
    gives 10.0 after the complaint, and the empty answer gives 10.0
    without it; only the end of the input makes it raise, [EOFError]. *)
Theorem get_delay_defaults :
  (forall (w : World) line rest o,
     get_delay {| world := w; stdin := line :: rest; out := o |} =
       match PyFloat.of_string (Py.str_or line "10") with
       | Some d =>
           (Ok d,
            {| world := w; stdin := rest;
               out := o ++ [Print MsgEnterDelay] |})
       | None =>
           (Ok (PyFloat.of_Z 10),
            {| world := w; stdin := rest;
               out := o ++ [Print MsgEnterDelay; Print MsgInvalidDelay] |})
       end) /\
  (forall (w : World) rest o,
     get_delay {| world := w; stdin := "" :: rest; out := o |} =
       (Ok (PyFloat.of_Z 10),
        {| world := w; stdin := rest; out := o ++ [Print MsgEnterDelay] |})) /\
  (forall (w : World) o,
     get_delay {| world := w; stdin := []; out := o |} =
       (Raise EOFError,
        {| world := w; stdin := []; out := o ++ [Print MsgEnterDelay] |})).
Proof.
  split; [|split].
  - intros w line rest o. unfold get_delay. run.
    destruct (PyFloat.of_string _); run; [reflexivity|now norm_log].
  - intros w rest o. unfold get_delay. run.
    change (PyFloat.of_string (Py.str_or "" "10"))
      with (Some (PyFloat.of_Z 10)).
    reflexivity.
  - intros w o. reflexivity.
Qed.

End Loaders.

Lemma load_usernames_trims_witness :
  usernames_txt Scenario.good_files = Holds ["alice"; "@bob"; "  "; "carol"] /\
  load_usernames Scenario.good_files (Scenario.start ["y"]) =
    (Ok ["alice"; "@bob"; "carol"], Scenario.start ["y"]) /\
  Forall loaded ["alice"; "@bob"; "carol"] /\
  Forall (fun u => normalize u = without "@" u) ["alice"; "@bob"; "carol"].
Proof.
  split; [reflexivity|].
  exact (load_usernames_trims Scenario.good_files (Scenario.start ["y"])
           ["alice"; "@bob"; "  "; "carol"] eq_refl).
Defined.

(** ** The reason menu *)

(** X4: the menu takes the choice k, for k from 1 to 8, to the code
    1000 + k; white space around the choice is ignored and a blank
    answer stands for the choice 4; every other answer is rejected. *)
Theorem parse_choice_table line code :
  parse_choice line = Some code <->
  exists k, 1 <= k <= 8 /\
    Py.str_or (Py.strip line) "4" = digit k /\
    code = (1000 + Z.of_nat k)%Z.
Proof.
  unfold parse_choice. split.
  - generalize (Py.str_or (Py.strip line) "4"). intros choice.
    unfold reasons. rewrite !lookup_insert_Some, lookup_singleton_Some.
    intros H.
    repeat (destruct H as [[<- <-]|[_ H]];
            [first [ exists 1; now repeat split; lia
                   | exists 2; now repeat split; lia
                   | exists 3; now repeat split; lia
                   | exists 4; now repeat split; lia
                   | exists 5; now repeat split; lia
                   | exists 6; now repeat split; lia
                   | exists 7; now repeat split; lia ]|]).
    destruct H as [<- <-]. exists 8. now repeat split; lia.
  - intros (k & Hk & -> & ->).
    destruct k as [|[|[|[|[|[|[|[|[|k]]]]]]]]]; try lia; reflexivity.
Qed.

Section ReasonLoop.

Context {World : Type}.

Lemma reason_loop_rejects bad : forall n (w : World) tail o,
  Forall (fun l => parse_choice l = None) bad ->
  length (bad ++ tail) <= n ->
  reason_loop n {| world := w; stdin := bad ++ tail; out := o |} =
    reason_loop (n - length bad)
      {| world := w; stdin := tail; out := o ++ asked_again (length bad) |}.
Proof.
  induction bad as [|l bad IH]; intros n w tail o Hbad Hn.
  - cbn. now rewrite Nat.sub_0_r, app_nil_r.
  - inversion Hbad as [|? ? Hl Hbad']; subst.
    destruct n as [|n]; [cbn in Hn; lia|].
    cbn [app length asked_again Nat.sub reason_loop]. run. rewrite Hl. run.
    rewrite IH by (assumption || (cbn in Hn; lia)).
    now norm_log.
Qed.

(** X5: the reason prompt returns the code of the first answer that the
    menu accepts, whatever came before it: each rejected answer costs
    one prompt and one complaint, and the lines after the accepted one
    are left on the input.  When no answer is accepted the input runs
    out and the prompt raises [EOFError]. *)
Theorem reason_prompt_first_valid :
  (forall (w : World) bad good rest o code,
     Forall (fun l => parse_choice l = None) bad ->
     parse_choice good = Some code ->
     get_report_reason
       {| world := w; stdin := bad ++ good :: rest; out := o |} =
     (Ok code,
      {| world := w; stdin := rest;
         out := o ++ menu ++ asked_again (length bad)
                ++ [Print MsgEnterChoice] |})) /\
  (forall (w : World) bad o,
     Forall (fun l => parse_choice l = None) bad ->
     get_report_reason {| world := w; stdin := bad; out := o |} =
     (Raise EOFError,
      {| world := w; stdin := [];
         out := o ++ menu ++ asked_again (length bad)
                ++ [Print MsgEnterChoice] |})).
Proof.
  split.
  - intros w bad good rest o code Hbad Hgood.
    rewrite get_report_reason_eq. cbn [world stdin out].
    rewrite reason_loop_rejects by (assumption || lia).
    destruct (length (bad ++ good :: rest) - length bad);
      cbn [reason_loop]; run; rewrite Hgood; now norm_log.
  - intros w bad o Hbad.
    rewrite get_report_reason_eq. cbn [world stdin out].
    rewrite <- (app_nil_r bad) at 2.
    rewrite reason_loop_rejects by (assumption || (rewrite app_nil_r; lia)).
    destruct (length bad - length bad); cbn [reason_loop]; run;
      now norm_log.
Qed.

End ReasonLoop.

Lemma parse_choice_table_witness :
  parse_choice " 7 " = Some 1007%Z /\
  exists k, 1 <= k <= 8 /\
    Py.str_or (Py.strip " 7 ") "4" = digit k /\
    1007%Z = (1000 + Z.of_nat k)%Z.
Proof.
  assert (E : parse_choice " 7 " = Some 1007%Z) by reflexivity.
  split; [exact E|].
  exact (proj1 (parse_choice_table " 7 " 1007%Z) E).
Defined.

Lemma reason_prompt_first_valid_witness :
  Forall (fun l => parse_choice l = None) ["9"; "x"] /\
  parse_choice "2" = Some 1002%Z /\
  get_report_reason
    {| world := tt; stdin := ["9"; "x"] ++ "2" :: ["-5"; "y"]; out := [] |} =
  (Ok 1002%Z,
   {| world := tt; stdin := ["-5"; "y"];
      out := [] ++ menu ++ asked_again (length ["9"; "x"])
             ++ [Print MsgEnterChoice] |}).
Proof.
  assert (Hbad : Forall (fun l => parse_choice l = None) ["9"; "x"])
    by (repeat constructor).
  assert (Hgood : parse_choice "2" = Some 1002%Z) by reflexivity.
  split; [exact Hbad|]. split; [exact Hgood|].
  exact (proj1 (@reason_prompt_first_valid unit) tt ["9"; "x"] "2"
           ["-5"; "y"] [] 1002%Z Hbad Hgood).
Defined.

(** ** The three requests *)

Section Requests.

Context {World : Type}.
Variable http_get :
  gmap string value -> string -> World -> option response * World.
Variable http_post :
  gmap string value -> string -> gmap string value -> World ->
  option response * World.

(** X6: the liveness check never raises, whatever the transport does: it
    sends one GET to the lookup of the fixed handle "tiktok", prints
    nothing, reads no input, and returns [True] exactly when the request
    was answered with status 200; the body of the answer plays no
    part. *)
Theorem liveness_check self (st : state World) :
  exists b w,
    check_cookies_valid http_get self st =
      (Ok b,
       {| world := w; stdin := stdin st; out := out st ++ [Get probe_url] |}) /\
    (b = true <->
     exists resp,
       fst (http_get (cookies self) probe_url (world st)) = Some resp /\
       status_code resp = 200%Z).
Proof.
  destruct (check_cookies_valid_returns http_get self st) as (w & E).
  eexists _, w. split; [exact E|].
  unfold probe_ok. destruct (fst _) as [resp|].
  - rewrite Z.eqb_eq. split; [eauto|]. now intros (r & [= <-] & H).
  - split; [discriminate|]. now intros (r & H & _).
Qed.

(** X7: [get_user_info] never raises.  It sends one GET to the lookup of
    the handle it is given, and returns the decoded body when the answer
    has status 200 and decodes, [None] otherwise; it prints one error
    line when the transport failed or the body of a 200 did not decode,
    and nothing when the status is not 200. *)
Theorem get_user_info_outcome self username (st : state World) :
  let '(v, ms) :=
    match fst (http_get (cookies self) (detail_url +:+ username) (world st))
    with
    | None => (VNone, [MsgErrUserInfo RequestException])
    | Some resp =>
        if (status_code resp =? 200)%Z then
          match json resp with
          | Some body => (body, [])
          | None => (VNone, [MsgErrUserInfo JSONDecodeError])
          end
        else (VNone, [])
    end in
  exists w,
    get_user_info http_get self username st =
      (Ok v,
       {| world := w; stdin := stdin st;
          out := out st ++ Get (detail_url +:+ username) :: map Print ms |}).
Proof.
  unfold get_user_info. run.
  destruct (http_get _ _ _) as [[[sc body]|] w]; run.
  - destruct (sc =? 200)%Z; run.
    + destruct body as [v|]; run; exists w; now norm_log.
    + now exists w.
  - exists w. now norm_log.
Qed.

(** X8: [report_account] never raises.  It sends one POST to the report
    address, whose form names the identity both as the object and as the
    owner of the report, the reason code and the type "user", and has no
    other field.  It prints one error line when the transport failed,
    when the body of a 200 did not decode or was not a JSON object, and
    nothing when the status is not 200 or the report was turned down. *)
Theorem report_account_outcome self user_id reason (st : state World) :
  let form := report_payload user_id reason in
  (form !! "object_id" = Some user_id /\
   form !! "owner_id" = Some user_id /\
   form !! "reason" = Some (VInt reason) /\
   form !! "report_type" = Some (VStr "user") /\
   size form = 4) /\
  let '(b, ms) :=
    match fst (http_post (cookies self) report_url form (world st)) with
    | None => (false, [MsgErrReport RequestException])
    | Some resp =>
        if (status_code resp =? 200)%Z then
          match json resp with
          | Some (VDict d) =>
              (PyObj.eq_zero (default (VInt 0) (d !! "status_code")), [])
          | Some _ => (false, [MsgErrReport AttributeError])
          | None => (false, [MsgErrReport JSONDecodeError])
          end
        else (false, [])
    end in
  exists w,
    report_account http_post self user_id reason st =
      (Ok b,
       {| world := w; stdin := stdin st;
          out := out st ++ Post report_url form :: map Print ms |}).
Proof.
  intros form. split; [repeat split; reflexivity|].
  unfold report_account. fold form. run.
  destruct (http_post _ _ _ _) as [[[sc body]|] w]; run.
  - destruct (sc =? 200)%Z; run.
    + destruct body as [[|b|n|f|s|l|d]|]; cbn [PyObj.get_default]; run;
        exists w; now norm_log.
    + now exists w.
  - exists w. now norm_log.
Qed.

End Requests.

(** ** What a run sends *)

Lemma in_order_prints ms : forall g p s l,
  in_order g p s l -> in_order g p s (map Print ms ++ l).
Proof. induction ms as [|m ms IH]; intros; cbn; [assumption|now apply IH]. Qed.

Lemma in_order_app l1 : forall g p s l2,
  in_order g p s l1 ->
  in_order (g + count is_get l1) (p + count is_post l1)
    (s + count is_sleep l1) l2 ->
  in_order g p s (l1 ++ l2).
Proof.
  induction l1 as [|ev l1 IH]; intros g p s l2 H1 H2.
  - cbn in H2. now rewrite !Nat.add_0_r in H2.
  - rewrite !count_cons in H2.
    destruct ev; cbn [app in_order is_get is_post is_sleep] in *;
      try destruct H1 as [Hle H1]; try split; try assumption;
      apply IH; try assumption;
      match goal with
      | H : in_order ?a ?b ?c l2 |- in_order ?a' ?b' ?c' l2 =>
          replace a' with a by lia; replace b' with b by lia;
          replace c' with c by lia; exact H
      end.
Qed.

Lemma in_order_prefix pre : forall g p s suf,
  in_order g p s (pre ++ suf) ->
  s <= p <= g ->
  s + count is_sleep pre <= p + count is_post pre <= g + count is_get pre.
Proof.
  induction pre as [|ev pre IH]; intros g p s suf H Hle.
  - cbn. lia.
  - rewrite !count_cons.
    destruct ev; cbn [app in_order is_get is_post is_sleep] in *;
      try destruct H as [Hs H];
      match goal with
      | H : in_order _ _ _ (pre ++ suf) |- _ => apply IH in H; lia
      end.
Qed.

Lemma Forall_prints reason delay usernames ms :
  Forall (addressed reason delay usernames) (map Print ms).
Proof. induction ms; cbn; constructor; [exact I|assumption]. Qed.

Section Discipline.

Variable reason : Z.
Variable delay : spec_float.
Variable total : nat.

Lemma turn_addressed usernames i u s f v r log :
  turn reason delay total i u s f v r log ->
  In u usernames ->
  Forall (addressed reason delay usernames) log.
Proof.
  intros H Hin.
  assert (Hget : normalize u <> "" ->
                 addressed reason delay usernames
                   (Get (detail_url +:+ normalize u)))
    by (intros; exists u; auto).
  assert (Hpost : forall id,
            addressed reason delay usernames
              (Post report_url (report_payload id reason)))
    by (intros; split; eauto).
  inversion H; subst; clear H; unfold report_log;
    repeat first [ apply List.Forall_nil
                 | apply List.Forall_cons;
                   [first [exact I | now auto | reflexivity]|]
                 | apply List.Forall_app; split
                 | apply Forall_prints ].
Qed.

Lemma turn_in_order i u s0 f v r log :
  turn reason delay total i u s0 f v r log ->
  forall g p s, s <= p <= g -> in_order g p s log.
Proof.
  intros H g p s Hle.
  inversion H; subst; clear H; unfold report_log;
    cbn [in_order app]; try exact I;
    repeat first [ apply in_order_prints
                 | match goal with
                   | |- in_order _ _ _ (map Print ?l) =>
                       rewrite <- (app_nil_r (map Print l))
                   end
                 | progress cbn [in_order app]
                 | split; [lia|]
                 | rewrite <- app_assoc
                 | exact I ].
Qed.

Lemma turn_gets i u s f v r log :
  turn reason delay total i u s f v r log ->
  count is_get log <= (if nonempty u then 1 else 0).
Proof.
  intros H. unfold nonempty. inversion H; subst; clear H;
    rewrite ?str_truthy_true by assumption;
    rewrite ?count_app, ?count_report_log, ?count_cons, ?count_app,
      ?count_cons, ?count_nil, ?count_prints by reflexivity;
    cbn [is_get]; cbn; lia.
Qed.

Lemma turns_discipline usernames : forall all i s f r log,
  turns reason delay total i usernames s f r log ->
  (forall u, In u usernames -> In u all) ->
  Forall (addressed reason delay all) log /\
  count is_get log <= N_nonEmpty usernames /\
  (forall g p s, s <= p <= g -> in_order g p s log).
Proof.
  induction usernames as [|u rest IH]; intros all i s f r log H Hall;
    inversion H; subst; clear H.
  - repeat split; [constructor|cbn; lia].
  - match goal with
    | Ht : turn _ _ _ _ _ _ _ _ _ _, Hts : turns _ _ _ _ _ _ _ _ _ |- _ =>
        pose proof (turn_addressed all _ _ _ _ _ _ _ Ht
                      (Hall _ (or_introl eq_refl))) as Ha;
        pose proof (turn_gets _ _ _ _ _ _ _ Ht) as Hg;
        pose proof (turn_in_order _ _ _ _ _ _ _ Ht) as Ho;
        apply (IH all) in Hts as (Ha' & Hg' & Ho');
        [|intros; apply Hall; now right]
    end.
    rewrite N_nonEmpty_cons, count_app.
    split; [apply List.Forall_app; now split|]. split; [lia|].
    intros g p s0 Hle. apply in_order_app; [now apply Ho|].
    apply Ho'.
    specialize (Ho g p s0 Hle).
    rewrite <- (app_nil_r log0) in Ho.
    apply in_order_prefix in Ho; lia.
  - match goal with
    | Ht : turn _ _ _ _ _ _ _ _ _ _ |- _ =>
        pose proof (turn_addressed all _ _ _ _ _ _ _ Ht
                      (Hall _ (or_introl eq_refl))) as Ha;
        pose proof (turn_gets _ _ _ _ _ _ _ Ht) as Hg;
        pose proof (turn_in_order _ _ _ _ _ _ _ Ht) as Ho
    end.
    rewrite N_nonEmpty_cons. split; [exact Ha|]. split; [lia|exact Ho].
Qed.

End Discipline.

Lemma dict_truthy (d : gmap string value) k x :
  d !! k = Some x -> PyObj.truthy (VDict d) = true.
Proof.
  intros H. cbn. destruct (map_to_list d) eqn:E; [|reflexivity].
  apply map_to_list_empty_iff in E. subst. now rewrite lookup_empty in H.
Qed.

Section Run.

Context {World : Type}.
Variable http_get :
  gmap string value -> string -> World -> option response * World.
Variable http_post :
  gmap string value -> string -> gmap string value -> World ->
  option response * World.
Variable self : TikTokMassReporter.
Variable reason : Z.
Variable delay : spec_float.

Lemma process_accounts_log usernames (st : state World) :
  exists r w log,
    process_accounts http_get http_post self usernames reason delay st =
      (r, {| world := w; stdin := stdin st; out := out st ++ log |}) /\
    Forall (addressed reason delay usernames) log /\
    count is_get log <= N_nonEmpty usernames /\
    in_order 0 0 0 log.
Proof.
  rewrite process_accounts_eq.
  destruct (process_loop_turns http_get http_post self reason delay
              (length usernames) usernames 1 0 0 (started delay usernames st))
    as (r & w & log & -> & Ht).
  apply (turns_discipline reason delay (length usernames) usernames usernames)
    in Ht as (Ha & Hg & Ho); [|auto].
  specialize (Ho 0 0 0 ltac:(lia)).
  destruct r as [[s f]|e]; cbn [world stdin out started fst snd].
  - exists (Ok tt), w,
      ([Print (MsgStart (length usernames)); Print (MsgUsingDelay delay)]
         ++ log ++ summary usernames s f).
    split; [now norm_log|]. split; [|split].
    + repeat first [ apply List.Forall_app; split | assumption
                   | apply List.Forall_cons; [exact I|]
                   | apply List.Forall_nil ].
    + unfold summary.
      rewrite !count_app, !count_cons, !count_nil. cbn [is_get]. lia.
    + cbn [app in_order]. apply in_order_app; [exact Ho|]. exact I.
  - exists (Raise e), w,
      ([Print (MsgStart (length usernames)); Print (MsgUsingDelay delay)]
         ++ log).
    split; [now norm_log|]. split; [|split].
    + repeat first [ apply List.Forall_app; split | assumption
                   | apply List.Forall_cons; [exact I|]
                   | apply List.Forall_nil ].
    + rewrite !count_app, !count_cons, !count_nil. cbn [is_get]. lia.
    + exact Ho.
Qed.


(** X10: at every moment of a run, complete or not, the reports sent so
    far are no more than the lookups, and the waits no more than the
    reports: no report goes out before the lookup of its handle, and no
    wait happens before a report. *)
Theorem lookup_before_report usernames (st : state World) pre suf :
  out (snd (process_accounts http_get http_post self usernames reason delay st))
    = out st ++ pre ++ suf ->
  count is_sleep pre <= count is_post pre <= count is_get pre.
Proof.
  destruct (process_accounts_log usernames st) as (r & w & log & E & _ & _ & Ho).
  rewrite E. cbn [snd out]. intros H. apply app_inv_head in H. subst log.
  apply in_order_prefix in Ho; lia.
Qed.

(** X11: when the lookup of a handle that is not empty is answered with
    status 200 and a JSON object whose [userInfo] is an object whose
    [user] is an object with an [id], the turn reports exactly that
    identity, whatever JSON value it is, with the reason of the run, and
    sends no other report. *)
Theorem found_user_is_reported total i username s f (st : state World)
    resp d du dd user_id :
  normalize username <> "" ->
  fst (http_get (cookies self) (detail_url +:+ normalize username) (world st))
    = Some resp ->
  status_code resp = 200%Z ->
  json resp = Some (VDict d) ->
  d !! "userInfo" = Some (VDict du) ->
  du !! "user" = Some (VDict dd) ->
  dd !! "id" = Some user_id ->
  exists r w log,
    process_one http_get http_post self reason delay total i username s f st =
      (r, {| world := w; stdin := stdin st; out := out st ++ log |}) /\
    List.filter is_post log = [Post report_url (report_payload user_id reason)].
Proof.
  intros Hne Hr Hs Hj Hd Hdu Hdd.
  destruct (process_one_turn http_get http_post self reason delay total
              i username s f st) as (r & w & log & E & Ht).
  exists r, w, log. split; [exact E|].
  assert (Hid : identity (resolved (fst (http_get (cookies self)
                   (detail_url +:+ normalize username) (world st))))
                = Ok (Some user_id)).
  { rewrite Hr. unfold resolved. rewrite Hs, Hj.
    cbn [Z.eqb Pos.eqb default from_option]. unfold id, identity.
    rewrite (dict_truthy d _ _ Hd). cbn [negb PyObj.get PyObj.getitem].
    rewrite Hd. cbn [default from_option]. unfold id.
    rewrite (dict_truthy du _ _ Hdu).
    cbn [negb PyObj.getitem]. rewrite Hdu. cbn [PyObj.getitem].
    now rewrite Hdd. }
  assert (Hprints : forall ms, List.filter is_post (map Print ms) = [])
    by (induction ms; auto).
  inversion Ht; subst; clear Ht; try congruence;
    match goal with
    | H : identity _ = Ok (Some ?x) |- _ =>
        rewrite Hid in H; injection H as <-
    end;
    unfold report_log; cbn [List.filter is_post app];
    rewrite ?List.filter_app, ?Hprints; cbn [List.filter is_post app];
    rewrite ?List.filter_app, ?Hprints; cbn [List.filter is_post app];
    reflexivity.
Qed.

(** X12: when every entry of the list normalizes to empty (the empty
    list among them), the run sends nothing and waits for nothing: it
    prints its two opening lines and a summary of 0 successes and 0
    failures, with the length of the list as total. *)
Theorem nothing_to_process usernames (st : state World) :
  Forall (fun u => normalize u = "") usernames ->
  process_accounts http_get http_post self usernames reason delay st =
    (Ok tt,
     {| world := world st; stdin := stdin st;
        out := out st
               ++ [Print (MsgStart (length usernames));
                   Print (MsgUsingDelay delay)]
               ++ summary usernames 0 0 |}).
Proof.
  intros Hall. rewrite process_accounts_eq.
  assert (Hloop : forall i (st0 : state World),
            process_loop http_get http_post self reason delay
              (length usernames) i usernames 0 0 st0 = (Ok (0, 0), st0)).
  { generalize (length usernames) as total.
    induction Hall as [|u rest Hu _ IH]; intros total i st0; [reflexivity|].
    cbn [process_loop]. run.
    rewrite (process_one_skip http_get http_post self reason delay total
               i u 0 0 st0 Hu).
    cbn [fst snd]. apply IH. }
  rewrite Hloop. cbn [started world stdin out fst snd]. now norm_log.
Qed.

End Run.

Lemma lookup_before_report_witness :
  let log :=
    out (snd (process_accounts Scenario.get Scenario.post Scenario.reporter
                ["alice"; "carol"] 1004 Scenario.ten (Scenario.start []))) in
  let pre := firstn 6 log in
  let suf := skipn 6 log in
  log = out (Scenario.start []) ++ pre ++ suf /\
  count is_sleep pre <= count is_post pre <= count is_get pre.
Proof.
  intros log pre suf.
  assert (E : log = out (Scenario.start []) ++ pre ++ suf)
    by (vm_compute; reflexivity).
  split; [exact E|].
  exact (lookup_before_report Scenario.get Scenario.post Scenario.reporter
           1004 Scenario.ten ["alice"; "carol"] (Scenario.start []) pre suf E).
Defined.

Lemma found_user_is_reported_witness :
  let dd : gmap string value := {[ "id" := VStr "1" ]} in
  let du : gmap string value := {[ "user" := VDict dd ]} in
  let d : gmap string value := {[ "userInfo" := VDict du ]} in
  let resp := Response 200 (Some (VDict d)) in
  normalize "@alice" <> "" /\
  fst (Scenario.get (cookies Scenario.reporter)
         (detail_url +:+ normalize "@alice") (world (Scenario.start []))) =
    Some resp /\
  exists r w log,
    process_one Scenario.get Scenario.post Scenario.reporter 1004
      Scenario.ten 2 1 "@alice" 0 0 (Scenario.start []) =
      (r, {| world := w; stdin := stdin (Scenario.start []);
             out := out (Scenario.start []) ++ log |}) /\
    List.filter is_post log =
      [Post report_url (report_payload (VStr "1") 1004)].
Proof.
  intros dd du d resp.
  assert (Hne : normalize "@alice" <> "") by discriminate.
  assert (Hr : fst (Scenario.get (cookies Scenario.reporter)
                      (detail_url +:+ normalize "@alice")
                      (world (Scenario.start []))) = Some resp)
    by reflexivity.
  split; [exact Hne|]. split; [exact Hr|].
  apply (found_user_is_reported Scenario.get Scenario.post Scenario.reporter
           1004 Scenario.ten 2 1 "@alice" 0 0 (Scenario.start [])
           resp d du dd (VStr "1") Hne Hr); reflexivity.
Defined.

Lemma nothing_to_process_witness :
  Forall (fun u => normalize u = "") ["@"; "  "] /\
  process_accounts Scenario.get Scenario.post Scenario.reporter
    ["@"; "  "] 1004 Scenario.ten (Scenario.start ["y"]) =
    (Ok tt,
     {| world := tt; stdin := ["y"];
        out := [] ++ [Print (MsgStart 2); Print (MsgUsingDelay Scenario.ten)]
               ++ summary ["@"; "  "] 0 0 |}).
Proof.
  assert (H : Forall (fun u => normalize u = "") ["@"; "  "])
    by (repeat constructor).
  split; [exact H|].
  exact (nothing_to_process Scenario.get Scenario.post Scenario.reporter
           1004 Scenario.ten ["@"; "  "] (Scenario.start ["y"]) H).
Defined.

(** ** What [main] has made sure of *)

Lemma identity_raises v e : identity v = Raise e -> is_Exception e = true.
Proof.
  unfold identity.
  repeat match goal with
         | |- context [if ?b then _ else _] => destruct b
         | |- context [match ?x with Ok _ => _ | Raise _ => _ end] =>
             let E := fresh "E" in destruct x eqn:E
         end; try discriminate;
    intros [= <-];
    repeat match goal with
           | H : PyObj.get ?x _ = Raise _ |- _ =>
               destruct x; cbn in H; try discriminate H;
               injection H as <-
           | H : PyObj.getitem ?x _ = Raise _ |- _ =>
               destruct x; cbn in H; try discriminate H;
               try (destruct (_ !! _); try discriminate H);
               injection H as <-
           end; reflexivity.
Qed.

Lemma sleep_error_raises secs e :
  PyTime.sleep_error secs = Some e -> is_Exception e = true.
Proof.
  unfold PyTime.sleep_error.
  destruct secs;
    repeat match goal with
           | |- context [if ?b then _ else _] => destruct b
           end; intros [= <-]; reflexivity.
Qed.

Lemma turns_raise_exception reason delay total usernames : forall i s f e log,
  turns reason delay total i usernames s f (Raise e) log ->
  is_Exception e = true.
Proof.
  induction usernames as [|u rest IH]; intros i s f e log H;
    inversion H; subst; clear H.
  - eapply IH; eassumption.
  - match goal with
    | Ht : turn _ _ _ _ _ _ _ _ _ _ |- _ => inversion Ht; subst; clear Ht
    end;
    eauto using identity_raises, sleep_error_raises.
Qed.

Lemma count_post_requests log : count is_post (requests log) = count is_post log.
Proof.
  unfold count, requests. induction log as [|ev log IH]; [reflexivity|].
  destruct ev; cbn; rewrite ?IH; reflexivity.
Qed.

Section StartupPhases.

Context {World : Type}.

Lemma load_cookies_cases fs (st : state World) :
  (exists d, cookies_json fs = Holds (Some (VDict d)) /\
             load_cookies fs st = (Ok d, st)) \/
  (exists ms,
     load_cookies fs st =
       (Raise (SystemExit 1),
        {| world := world st; stdin := stdin st;
           out := out st ++ map Print ms |})).
Proof.
  destruct (cookies_json fs) as [| |[v|]] eqn:E.
  - right. apply load_cookies_bad. auto.
  - right. apply load_cookies_bad. auto.
  - destruct (PyObj.is_dict v) eqn:Hv.
    + destruct v; try discriminate. left. eexists. split; [reflexivity|].
      now apply load_cookies_ok.
    + right. apply load_cookies_bad. right. right. right. eauto.
  - right. apply load_cookies_bad. auto.
Qed.

Lemma load_usernames_cases fs (st : state World) :
  (exists ls, usernames_txt fs = Holds ls /\
     load_usernames fs st =
       (Ok (map Py.strip
              (List.filter (fun l => negb (all_chars Py.isspace l)) ls)),
        st)) \/
  (exists ms,
     load_usernames fs st =
       (Raise (SystemExit 1),
        {| world := world st; stdin := stdin st;
           out := out st ++ map Print ms |})).
Proof.
  destruct (usernames_txt fs) as [| |ls] eqn:E.
  - right. apply load_usernames_bad. auto.
  - right. apply load_usernames_bad. auto.
  - left. exists ls. split; [reflexivity|].
    rewrite (load_usernames_ok _ _ _ E).
    now rewrite (filter_ext_bool _ _ ls kept_line).
Qed.

Lemma reason_loop_log n : forall (st : state World),
  exists r rest ms,
    reason_loop n st =
      (r, {| world := world st; stdin := rest;
             out := out st ++ map Print ms |}) /\
    (r = Raise EOFError \/ exists c, r = Ok c /\ (1001 <= c <= 1008)%Z).
Proof.
  induction n as [|n IH]; intros [w lines o]; cbn [reason_loop]; run;
    (destruct lines as [|line rest];
     [exists (Raise EOFError), [], [MsgEnterChoice]; split; [reflexivity|auto]|]);
    destruct (parse_choice line) as [c|] eqn:E; run;
    try (exists (Ok c), rest, [MsgEnterChoice]; split; [reflexivity|];
         right; exists c; split; [reflexivity|];
         exact (parse_choice_range _ _ E)).
  - exists (Raise EOFError), rest, [MsgEnterChoice; MsgInvalidChoice].
    split; [now norm_log|auto].
  - destruct (IH {| world := w; stdin := rest;
                    out := (o ++ [Print MsgEnterChoice])
                           ++ [Print MsgInvalidChoice] |})
      as (r & rest' & ms & -> & Hr).
    exists r, rest', (MsgEnterChoice :: MsgInvalidChoice :: ms).
    cbn [world stdin out]. split; [now norm_log|exact Hr].
Qed.

Lemma get_report_reason_log (st : state World) :
  exists r rest ms,
    get_report_reason st =
      (r, {| world := world st; stdin := rest;
             out := out st ++ map Print ms |}) /\
    (r = Raise EOFError \/ exists c, r = Ok c /\ (1001 <= c <= 1008)%Z).
Proof.
  rewrite get_report_reason_eq.
  destruct (reason_loop_log (length (stdin st))
              {| world := world st; stdin := stdin st;
                 out := out st ++ menu |}) as (r & rest & ms & -> & Hr).
  exists r, rest,
    ([MsgReasonMenu; MsgReasonOption 1; MsgReasonOption 2; MsgReasonOption 3;
      MsgReasonOption 4; MsgReasonOption 5; MsgReasonOption 6;
      MsgReasonOption 7; MsgReasonOption 8] ++ ms).
  split; [|exact Hr]. cbn [world out]. rewrite map_app. unfold menu.
  now norm_log.
Qed.

Lemma get_delay_log (st : state World) :
  exists r rest ms,
    get_delay st =
      (r, {| world := world st; stdin := rest;
             out := out st ++ map Print ms |}) /\
    (r = Raise EOFError \/ exists d, r = Ok d).
Proof.
  destruct st as [w lines o]. unfold get_delay. run.
  destruct lines as [|line rest]; run.
  - exists (Raise EOFError), [], [MsgEnterDelay]. split; [reflexivity|auto].
  - destruct (PyFloat.of_string _) as [d|]; run.
    + exists (Ok d), rest, [MsgEnterDelay]. split; [reflexivity|eauto].
    + exists (Ok (PyFloat.of_Z 10)), rest, [MsgEnterDelay; MsgInvalidDelay].
      split; [now norm_log|eauto].
Qed.

End StartupPhases.

Ltac solve_requests :=
  cbn [out world stdin];
  rewrite ?requests_app, ?requests_prints;
  cbn [requests List.filter is_request is_get is_post orb app];
  rewrite ?requests_app, ?requests_prints, ?app_nil_r;
  cbn [requests List.filter is_request is_get is_post orb app];
  rewrite ?app_nil_r; auto.

Section Startup.

Context {World : Type}.
Variable http_get :
  gmap string value -> string -> World -> option response * World.
Variable http_post :
  gmap string value -> string -> gmap string value -> World ->
  option response * World.

Lemma startup_inv fs (st st1 : state World) r :
  startup http_get fs st = (r, st1) ->
  match r with
  | Raise e =>
      (e = SystemExit 1 \/ e = EOFError) /\
      (requests (out st1) = requests (out st) \/
       requests (out st1) = requests (out st) ++ [Get probe_url])
  | Ok (rep, us, reason, delay) =>
      cookies_json fs = Holds (Some (VDict (cookies rep))) /\
      probe_ok (fst (http_get (cookies rep) probe_url (world st))) = true /\
      (exists ls, usernames_txt fs = Holds ls /\
         us = map Py.strip
                (List.filter (fun l => negb (all_chars Py.isspace l)) ls)) /\
      us <> [] /\
      Forall loaded us /\
      (1001 <= reason <= 1008)%Z /\
      requests (out st1) = requests (out st) ++ [Get probe_url]
  end.
Proof.
  unfold startup, clear_screen, print_banner. run.
  destruct (load_cookies_cases fs st) as [(d & Hc & ->)|(ms & ->)]; run.
  2:{ intros [= <- <-]. split; [auto|]. left. solve_requests. }
  match goal with |- context [check_cookies_valid _ ?rep ?st0] =>
    destruct (check_cookies_valid_returns http_get rep st0) as (w & ->) end.
  cbn [world stdin out cookies].
  destruct (probe_ok _) eqn:Hp; run.
  2:{ intros [= <- <-]. split; [auto|]. right. solve_requests. }
  match goal with |- context [load_usernames fs ?st0] =>
    destruct (load_usernames_cases fs st0) as [(ls & Hu & ->)|(ms & ->)] end;
    run.
  2:{ intros [= <- <-]. split; [auto|]. right. solve_requests. }
  pose proof (loaded_lines ls) as Hl.
  destruct (map Py.strip _) as [|u us] eqn:Hus; run.
  { intros [= <- <-]. split; [auto|]. right. solve_requests. }
  match goal with |- context [get_report_reason ?st0] =>
    destruct (get_report_reason_log st0) as (r1 & rest1 & ms1 & -> & Hr1) end.
  cbn [world stdin out].
  destruct Hr1 as [->|(c & -> & Hc1)].
  { intros [= <- <-]. split; [auto|]. right. solve_requests. }
  match goal with |- context [get_delay ?st0] =>
    destruct (get_delay_log st0) as (r2 & rest2 & ms2 & -> & Hr2) end.
  cbn [world stdin out].
  destruct Hr2 as [->|(dl & ->)].
  { intros [= <- <-]. split; [auto|]. right. solve_requests. }
  intros [= <- <-]. cbn [cookies].
  split; [exact Hc|]. split; [exact Hp|]. split; [eauto|].
  split; [discriminate|]. split; [exact Hl|]. split; [exact Hc1|].
  solve_requests.
Qed.

End Startup.

Section MainGuarantees.

Context {World : Type}.
Variable http_get :
  gmap string value -> string -> World -> option response * World.
Variable http_post :
  gmap string value -> string -> gmap string value -> World ->
  option response * World.

(** X13: when [main] reaches the confirmation, the session carries the
    JSON object of the credential file, the probe has been answered with
    status 200 and is the only request sent so far, the handles are the
    trimmed non-blank lines of the handle file and there is at least one,
    each of them non-empty, and the reason is one of the codes 1001 to
    1008; [main] goes on from there with the confirmation. *)
Theorem startup_guarantees fs (st st1 : state World) rep us reason delay :
  startup http_get fs st = (Ok (rep, us, reason, delay), st1) ->
  cookies_json fs = Holds (Some (VDict (cookies rep))) /\
  probe_ok (fst (http_get (cookies rep) probe_url (world st))) = true /\
  (exists ls, usernames_txt fs = Holds ls /\
     us = map Py.strip
            (List.filter (fun l => negb (all_chars Py.isspace l)) ls)) /\
  us <> [] /\
  Forall loaded us /\
  (1001 <= reason <= 1008)%Z /\
  requests (out st1) = requests (out st) ++ [Get probe_url] /\
  main http_get http_post fs st =
    confirm_and_report http_get http_post (rep, us, reason, delay) st1.
Proof.
  intros E. pose proof (startup_inv http_get fs st st1 _ E) as H.
  cbn in H. destruct H as (H1 & H2 & H3 & H4 & H5 & H6 & H7).
  repeat (split; [assumption|]).
  now rewrite main_eq, E.
Qed.

(** X14: [main] sends no report unless the startup went through and the
    answer to the confirmation was "y" or "Y": in every other run, a
    fatal startup condition, the end of the input or a cancelled
    confirmation, the output holds as many reports after [main] as
    before. *)
Theorem no_report_without_consent fs (st : state World) :
  count is_post (out (snd (main http_get http_post fs st))) =
    count is_post (out st) \/
  exists x st1 line rest,
    startup http_get fs st = (Ok x, st1) /\
    stdin st1 = line :: rest /\
    (line = "y" \/ line = "Y").
Proof.
  rewrite main_eq.
  destruct (startup http_get fs st) as [[x|e] st1] eqn:E.
  - pose proof (startup_inv http_get fs st st1 _ E) as H.
    destruct x as [[[rep us] reason] delay].
    destruct H as (_ & _ & _ & _ & _ & _ & Hreq).
    assert (Hp : count is_post (out st1) = count is_post (out st)).
    { rewrite <- (count_post_requests (out st1)), Hreq, count_app.
      rewrite count_post_requests. cbn. lia. }
    destruct (stdin st1) as [|line rest] eqn:Hin.
    + left. unfold confirm_and_report. run. rewrite Hin. cbn [snd out].
      rewrite !count_app. cbn. lia.
    + destruct (String.eqb (Py.lower line) "y") eqn:Hy.
      * right. apply String.eqb_eq, lower_y in Hy. eauto 8.
      * left. apply String.eqb_neq in Hy.
        assert (Em : main http_get http_post fs st =
                     confirm_and_report http_get http_post
                       (rep, us, reason, delay) st1)
          by (now rewrite main_eq, E).
        rewrite <- Em.
        rewrite (main_cancelled http_get http_post _ _ _ _ _ _ _ _ _ E Hin Hy).
        cbn [snd out]. rewrite count_app. cbn. lia.
  - left. pose proof (startup_inv http_get fs st st1 _ E) as [_ H].
    cbn [snd].
    rewrite <- (count_post_requests (out st1)), <- (count_post_requests (out st)).
    destruct H as [-> | ->]; [reflexivity|].
    rewrite count_app. cbn. lia.
Qed.

Lemma process_accounts_raises self usernames reason delay (st : state World) e :
  fst (process_accounts http_get http_post self usernames reason delay st) =
    Raise e ->
  is_Exception e = true.
Proof.
  rewrite process_accounts_eq.
  destruct (process_loop_turns http_get http_post self reason delay
              (length usernames) usernames 1 0 0 (started delay usernames st))
    as (r & w & log & -> & Ht).
  destruct r as [c|e']; cbn [fst]; [discriminate|].
  intros [= <-]. eapply turns_raise_exception; exact Ht.
Qed.

(** X15: the exit status of the process is 0 or 1 in every run,
    whatever the files hold, the user types and the service answers: no
    other argument is ever given to [sys.exit], and an exception that
    nothing catches ends the process with 1. *)
Theorem exit_status_binary fs (st : state World) :
  fst (run http_get http_post fs st) = 0%Z \/
  fst (run http_get http_post fs st) = 1%Z.
Proof.
  unfold run.
  destruct (main http_get http_post fs st) as [r st'] eqn:Em. cbn [fst].
  rewrite main_eq in Em.
  destruct (startup http_get fs st) as [[x|e] st1] eqn:E.
  - destruct x as [[[rep us] reason] delay].
    destruct (stdin st1) as [|line rest] eqn:Hin.
    + revert Em. unfold confirm_and_report. run. rewrite Hin.
      intros [= <- _]. now right.
    + destruct (String.eqb (Py.lower line) "y") eqn:Hy.
      * apply String.eqb_eq in Hy.
        assert (Em' : main http_get http_post fs st =
                      confirm_and_report http_get http_post
                        (rep, us, reason, delay) st1)
          by (now rewrite main_eq, E).
        rewrite <- Em' in Em.
        rewrite (main_confirmed http_get http_post _ _ _ _ _ _ _ _ _ E Hin Hy)
          in Em.
        destruct r as [[]|e]; [now left|].
        assert (He : is_Exception e = true)
          by (eapply process_accounts_raises; now rewrite Em).
        destruct e; try discriminate He; now right.
      * apply String.eqb_neq in Hy.
        assert (Em' : main http_get http_post fs st =
                      confirm_and_report http_get http_post
                        (rep, us, reason, delay) st1)
          by (now rewrite main_eq, E).
        rewrite <- Em' in Em.
        rewrite (main_cancelled http_get http_post _ _ _ _ _ _ _ _ _ E Hin Hy)
          in Em.
        injection Em as <- _. now left.
  - pose proof (startup_inv http_get fs st st1 _ E) as [[-> | ->] _];
      injection Em as <- _; now right.
Qed.

End MainGuarantees.

Lemma startup_guarantees_witness :
  let st := Scenario.start [""; "0"; "y"] in
  let up := startup Scenario.get Scenario.good_files st in
  up = (Ok (Reporter Scenario.jar, ["alice"; "@bob"; "carol"], 1004%Z,
            S754_zero false), snd up) /\
  cookies_json Scenario.good_files = Holds (Some (VDict Scenario.jar)) /\
  ["alice"; "@bob"; "carol"] <> [] /\
  Forall loaded ["alice"; "@bob"; "carol"] /\
  requests (out (snd up)) = requests (out st) ++ [Get probe_url].
Proof.
  intros st up.
  assert (E : up = (Ok (Reporter Scenario.jar, ["alice"; "@bob"; "carol"],
                        1004%Z, S754_zero false), snd up))
    by (vm_compute; reflexivity).
  destruct (startup_guarantees Scenario.get Scenario.post
              Scenario.good_files st (snd up) _ _ _ _ E)
    as (H1 & _ & _ & H4 & H5 & _ & H7 & _).
  repeat split; assumption.
Defined.

(** ** Every entry is reported on its own *)

Section NoDedup.

Context {World : Type}.
Variable http_get :
  gmap string value -> string -> World -> option response * World.
Variable http_post :
  gmap string value -> string -> gmap string value -> World ->
  option response * World.
Variable self : TikTokMassReporter.
Variable reason : Z.
Variable delay : spec_float.




End NoDedup.

